(** * MCP client and server (JSON-RPC 2.0 over stdio): a shallow embedding

    Embeds [mcp-implementation/mcp_server.py] (class [MCPServer]) and
    [mcp-implementation/mcp_client.py] (class [MCPClient]).

    Conventions.
    - A decoded JSON document is a value of [json].  Python's [None] is
      [JNull]; JSON numbers are restricted to integers (floats are outside
      the model).  A Python [dict] with string keys is an association list
      in insertion order with unique keys.
    - The text of a line and [json.loads]/[json.dumps] are not modelled: an
      inbound line is represented by what reading and decoding it yields
      ([wire_line]: a document, or the way in which reading or decoding
      fails), an outbound line by the value passed to [json.dumps].  Where
      an exception of [json.dumps] would escape, in the server's
      [_write_message], the exception is given by a parameter of the model.
    - Logging is not part of the state.
    - Handler faults are instances of Python's [Exception]; signals that
      only derive from [BaseException] are outside the model. *)

From stdpp Require Import gmap strings list fin_maps pretty.

Open Scope string_scope.
Open Scope list_scope.
Set Warnings "-register-all".

(** ** Python values *)

Inductive json :=
| JNull
| JBool (b : bool)
| JInt (z : Z)
| JStr (s : string)
| JList (l : list json)
| JObj (kv : list (string * json)).

(** The hashable values a decoded document can hold, as dict keys. *)
Inductive key :=
| KNone
| KBool (b : bool)
| KInt (z : Z)
| KStr (s : string).

(** Python's built-in exceptions as the two modules meet them: the class,
    as far as an [except] clause tells classes apart, with [str(e)] or the
    key of a [KeyError].  The wording of the exceptions that the interpreter
    raises is CPython 3.11's; nothing below depends on it. *)
Inductive exn :=
| ValueError (msg : string)
| TypeError (msg : string)
| AttributeError (msg : string)
| KeyError (k : key)
| OtherException (msg : string).

(** [isinstance(e, ValueError)] *)
Definition is_ValueError (e : exn) : bool :=
  match e with ValueError _ => true | _ => false end.

Inductive outcome (A : Type) :=
| Ok (a : A)
| Raise (e : exn).
Arguments Ok {A} a.
Arguments Raise {A} e.

Global Instance outcome_ret : MRet outcome := @Ok.
Global Instance outcome_bind : MBind outcome := λ A B f m,
  match m with
  | Ok a => f a
  | Raise e => Raise e
  end.

Module Py.

(** [d.get(k)] on the entries of a dict: [None] when the key is absent. *)
Fixpoint assoc {A} (k : string) (kv : list (string * A)) : option A :=
  match kv with
  | [] => None
  | (k', v) :: rest => if decide (k' = k) then Some v else assoc k rest
  end.

(** [d[k] = v]: an existing key keeps its position, a new key is appended. *)
Fixpoint assoc_set {A} (k : string) (v : A) (kv : list (string * A))
  : list (string * A) :=
  match kv with
  | [] => [(k, v)]
  | (k', v') :: rest =>
      if decide (k' = k) then (k, v) :: rest else (k', v') :: assoc_set k v rest
  end.

Definition type_name (j : json) : string :=
  match j with
  | JNull => "NoneType"
  | JBool _ => "bool"
  | JInt _ => "int"
  | JStr _ => "str"
  | JList _ => "list"
  | JObj _ => "dict"
  end.

Definition no_attribute (j : json) (attr : string) : exn :=
  AttributeError ("'" +:+ type_name j +:+ "' object has no attribute '" +:+ attr +:+ "'").

Definition unhashable (j : json) : exn :=
  TypeError ("unhashable type: '" +:+ type_name j +:+ "'").

Definition not_iterable (j : json) : exn :=
  TypeError ("argument of type '" +:+ type_name j +:+ "' is not iterable").

Definition not_subscriptable (j : json) : exn :=
  match j with
  | JList _ => TypeError "list indices must be integers or slices, not str"
  | JStr _ => TypeError "string indices must be integers, not 'str'"
  | _ => TypeError ("'" +:+ type_name j +:+ "' object is not subscriptable")
  end.

(** [j.get(k, dflt)] *)
Definition get (j : json) (k : string) (dflt : json) : outcome json :=
  match j with
  | JObj kv => Ok (default dflt (assoc k kv))
  | _ => Raise (no_attribute j "get")
  end.

Fixpoint is_prefix (p s : string) : bool :=
  match p, s with
  | EmptyString, _ => true
  | String a p, String b s => bool_decide (a = b) && is_prefix p s
  | String _ _, EmptyString => false
  end.

(** [p in s] for two strings *)
Fixpoint is_infix (p s : string) : bool :=
  is_prefix p s ||
  match s with
  | EmptyString => false
  | String _ s => is_infix p s
  end.

(** [k in j] for a [str] literal [k]: a key of a dict, an element of a
    list, a substring of a string. *)
Definition contains (k : string) (j : json) : outcome bool :=
  match j with
  | JObj kv => Ok (bool_decide (is_Some (assoc k kv)))
  | JList l =>
      Ok (existsb (λ x, match x with JStr s => bool_decide (s = k) | _ => false end) l)
  | JStr s => Ok (is_infix k s)
  | _ => Raise (not_iterable j)
  end.

(** [j[k]] for a [str] literal [k] *)
Definition getitem (j : json) (k : string) : outcome json :=
  match j with
  | JObj kv =>
      match assoc k kv with
      | Some v => Ok v
      | None => Raise (KeyError (KStr k))
      end
  | _ => Raise (not_subscriptable j)
  end.

(** [hash(j)] raises on lists and dicts. *)
Definition hash (j : json) : outcome key :=
  match j with
  | JNull => Ok KNone
  | JBool b => Ok (KBool b)
  | JInt z => Ok (KInt z)
  | JStr s => Ok (KStr s)
  | JList _ | JObj _ => Raise (unhashable j)
  end.

(** [str(k)], also what an f-string renders. *)
Definition str (k : key) : string :=
  match k with
  | KNone => "None"
  | KBool true => "True"
  | KBool false => "False"
  | KInt z => pretty z
  | KStr s => s
  end.

(** [repr(k)]; for a string, exact when it holds no quote, backslash or
    unprintable character. *)
Definition repr (k : key) : string :=
  match k with
  | KStr s => "'" +:+ s +:+ "'"
  | _ => str k
  end.

(** [str(e)] *)
Definition exn_str (e : exn) : string :=
  match e with
  | ValueError msg | TypeError msg | AttributeError msg | OtherException msg => msg
  | KeyError k => repr k
  end.

(** [k in d] and [d[k]] for a dict [d] with string keys. *)
Definition find {A} (k : key) (d : list (string * A)) : option A :=
  match k with
  | KStr s => assoc s d
  | _ => None
  end.

(** The key of an int-keyed dict that [k] finds.  [True == 1] and
    [False == 0] with equal hashes, so a boolean finds an integer key. *)
Definition int_key (k : key) : option Z :=
  match k with
  | KInt z => Some z
  | KBool true => Some 1%Z
  | KBool false => Some 0%Z
  | _ => None
  end.

(** [len(j)] *)
Definition len (j : json) : outcome nat :=
  match j with
  | JStr s => Ok (String.length s)
  | JList l => Ok (length l)
  | JObj kv => Ok (length kv)
  | _ => Raise (TypeError ("object of type '" +:+ type_name j +:+ "' has no len()"))
  end.

(** [j[0]] *)
Definition item0 (j : json) : outcome json :=
  match j with
  | JList (x :: _) => Ok x
  | JList [] => Raise (OtherException "list index out of range")
  | JStr (String a _) => Ok (JStr (String a ""))
  | JStr "" => Raise (OtherException "string index out of range")
  | JObj _ => Raise (KeyError (KInt 0))
  | _ => Raise (TypeError ("'" +:+ type_name j +:+ "' object is not subscriptable"))
  end.

(** [bool(j)], the test of [if j:] *)
Definition truthy (j : json) : bool :=
  match j with
  | JNull | JBool false | JInt 0 | JStr "" | JList [] | JObj [] => false
  | _ => true
  end.

End Py.

(** What the iteration over the inbound stream yields next, by what the
    reader loops distinguish:
    - [Blank]: a line that is empty after [strip()];
    - [Malformed]: a line on which [json.loads] raises [JSONDecodeError];
    - [Refused e]: a line on which [json.loads] raises another exception
      [e], such as [RecursionError] on a text nested deeper than the
      interpreter recurses, or [ValueError] on an integer of more digits
      than the interpreter converts;
    - [Decoded document]: a line on which [json.loads] returns [document];
    - [Garbled e]: bytes that are not text in the encoding of the stream:
      the iteration itself raises [e] ([UnicodeDecodeError]) and yields no
      line. *)
Inductive wire_line :=
| Blank
| Malformed
| Refused (e : exn)
| Decoded (document : json)
| Garbled (e : exn).


(** ** The server: [mcp_server.py] *)

Module Server.

Inductive ErrorCode :=
| PARSE_ERROR
| INVALID_REQUEST
| METHOD_NOT_FOUND
| INVALID_PARAMS
| INTERNAL_ERROR.

Definition value (code : ErrorCode) : Z :=
  match code with
  | PARSE_ERROR => -32700
  | INVALID_REQUEST => -32600
  | METHOD_NOT_FOUND => -32601
  | INVALID_PARAMS => -32602
  | INTERNAL_ERROR => -32603
  end.

Record Tool := {
  tool_name : string;
  tool_description : string;
  inputSchema : json }.

Record Resource := {
  uri : string;
  resource_name : string;
  resource_description : string;
  mimeType : string }.

Record Prompt := {
  prompt_name : string;
  prompt_description : string;
  arguments : json }.

(** [dataclasses.asdict] *)
Definition asdict_Tool (t : Tool) : json :=
  JObj [("name", JStr (tool_name t));
        ("description", JStr (tool_description t));
        ("inputSchema", inputSchema t)].

Definition asdict_Resource (r : Resource) : json :=
  JObj [("uri", JStr (uri r));
        ("name", JStr (resource_name r));
        ("description", JStr (resource_description r));
        ("mimeType", JStr (mimeType r))].

Definition asdict_Prompt (p : Prompt) : json :=
  JObj [("name", JStr (prompt_name p));
        ("description", JStr (prompt_description p));
        ("arguments", arguments p)].

(** The callbacks handed to [register_tool], [register_resource] and
    [register_prompt].  A tool's return value is only ever passed to
    [str], so a tool handler is modelled as returning that text. *)
Definition tool_handler := json → outcome string.
Definition resource_handler := outcome json.
Definition prompt_handler := json → outcome json.

(** A handler invocation; see [invoked] below. *)
Inductive callee :=
| MethodHandler (method : string)
| ToolHandler (name : string)
| ResourceHandler (uri : string)
| PromptHandler (name : string).

(** The fields of [MCPServer].  [register_tool] is the only writer of
    [self.tools] and [self.tool_handlers] and writes both under the same
    key, so the two dicts are kept as one dict of pairs; likewise for
    resources and prompts.  [stdout] holds the messages written so far.
    [invoked] is not a field of the class: it records, in order, every
    handler that was called. *)
Record MCPServer := {
  name : string;
  version : string;
  protocol_version : string;
  initialized : bool;
  tools : list (string * (Tool * tool_handler));
  resources : list (string * (Resource * resource_handler));
  prompts : list (string * (Prompt * prompt_handler));
  stdout : list json;
  invoked : list callee }.

Definition set_initialized (b : bool) (s : MCPServer) : MCPServer :=
  {| name := name s; version := version s;
     protocol_version := protocol_version s; initialized := b;
     tools := tools s; resources := resources s; prompts := prompts s;
     stdout := stdout s; invoked := invoked s |}.

Definition set_tools t (s : MCPServer) : MCPServer :=
  {| name := name s; version := version s;
     protocol_version := protocol_version s; initialized := initialized s;
     tools := t; resources := resources s; prompts := prompts s;
     stdout := stdout s; invoked := invoked s |}.

Definition set_resources r (s : MCPServer) : MCPServer :=
  {| name := name s; version := version s;
     protocol_version := protocol_version s; initialized := initialized s;
     tools := tools s; resources := r; prompts := prompts s;
     stdout := stdout s; invoked := invoked s |}.

Definition set_prompts p (s : MCPServer) : MCPServer :=
  {| name := name s; version := version s;
     protocol_version := protocol_version s; initialized := initialized s;
     tools := tools s; resources := resources s; prompts := p;
     stdout := stdout s; invoked := invoked s |}.

Definition set_stdout o (s : MCPServer) : MCPServer :=
  {| name := name s; version := version s;
     protocol_version := protocol_version s; initialized := initialized s;
     tools := tools s; resources := resources s; prompts := prompts s;
     stdout := o; invoked := invoked s |}.

Definition call (f : callee) (s : MCPServer) : MCPServer :=
  {| name := name s; version := version s;
     protocol_version := protocol_version s; initialized := initialized s;
     tools := tools s; resources := resources s; prompts := prompts s;
     stdout := stdout s; invoked := invoked s ++ [f] |}.

(** [MCPServer.__init__] *)
Definition __init__ (name version : string) : MCPServer :=
  {| name := name; version := version; protocol_version := "2024-11-05";
     initialized := false; tools := []; resources := []; prompts := [];
     stdout := []; invoked := [] |}.

Definition register_tool (name description : string) (input_schema : json)
    (handler : tool_handler) (s : MCPServer) : MCPServer :=
  let tool := {| tool_name := name; tool_description := description;
                 inputSchema := input_schema |} in
  set_tools (Py.assoc_set name (tool, handler) (tools s)) s.

Definition register_resource (uri name description mime_type : string)
    (handler : resource_handler) (s : MCPServer) : MCPServer :=
  let resource := {| uri := uri; resource_name := name;
                     resource_description := description;
                     mimeType := mime_type |} in
  set_resources (Py.assoc_set uri (resource, handler) (resources s)) s.

Definition register_prompt (name description : string) (arguments : json)
    (handler : prompt_handler) (s : MCPServer) : MCPServer :=
  let prompt := {| prompt_name := name; prompt_description := description;
                   arguments := arguments |} in
  set_prompts (Py.assoc_set name (prompt, handler) (prompts s)) s.

(** The methods take [params] and may change the server; what they
    return or raise comes with the server they leave behind. *)
Definition method_handler := MCPServer → json → MCPServer * outcome json.

Definition _handle_initialize : method_handler := λ s params,
  match
    client_protocol ← Py.get params "protocolVersion" JNull;
    client_info ← Py.get params "clientInfo" (JObj []);
    _ ← Py.get client_info "name" JNull;
    Py.get client_info "version" JNull
  with
  | Raise e => (s, Raise e)
  | Ok _ =>
      (set_initialized true s,
       Ok (JObj [("protocolVersion", JStr (protocol_version s));
                 ("capabilities", JObj [("resources", JObj []);
                                        ("tools", JObj []);
                                        ("prompts", JObj []);
                                        ("logging", JObj [])]);
                 ("serverInfo", JObj [("name", JStr (name s));
                                      ("version", JStr (version s))])]))
  end.

Definition _handle_tools_list : method_handler := λ s params,
  let tools_list := (λ entry, asdict_Tool (fst (snd entry))) <$> tools s in
  (s, Ok (JObj [("tools", JList tools_list)])).

Definition text_content (text : string) (isError : bool) : json :=
  JObj [("content", JList [JObj [("type", JStr "text");
                                 ("text", JStr text)]]);
        ("isError", JBool isError)].

Definition _handle_tools_call : method_handler := λ s params,
  match
    tool_name ← Py.get params "name" JNull;
    arguments ← Py.get params "arguments" (JObj []);
    k ← Py.hash tool_name;
    Ok (k, arguments)
  with
  | Raise e => (s, Raise e)
  | Ok (k, arguments) =>
      match Py.find k (tools s) with
      | None => (s, Raise (ValueError ("Tool not found: " +:+ Py.str k)))
      | Some (_, handler) =>
          let s := call (ToolHandler (Py.str k)) s in
          match handler arguments with
          | Ok result => (s, Ok (text_content result false))
          | Raise e => (s, Ok (text_content ("Error: " +:+ Py.exn_str e) true))
          end
      end
  end.

Definition _handle_resources_list : method_handler := λ s params,
  let resources_list :=
    (λ entry, asdict_Resource (fst (snd entry))) <$> resources s in
  (s, Ok (JObj [("resources", JList resources_list)])).

Definition _handle_resources_read : method_handler := λ s params,
  match
    uri ← Py.get params "uri" JNull;
    k ← Py.hash uri;
    Ok (uri, k)
  with
  | Raise e => (s, Raise e)
  | Ok (uri, k) =>
      match Py.find k (resources s) with
      | None => (s, Raise (ValueError ("Resource not found: " +:+ Py.str k)))
      | Some (resource, handler) =>
          let s := call (ResourceHandler (Py.str k)) s in
          match handler with
          | Raise e => (s, Raise e)
          | Ok content =>
              (s, Ok (JObj [("contents",
                             JList [JObj [("uri", uri);
                                          ("mimeType", JStr (mimeType resource));
                                          ("text", content)]])]))
          end
      end
  end.

Definition _handle_prompts_list : method_handler := λ s params,
  let prompts_list :=
    (λ entry, asdict_Prompt (fst (snd entry))) <$> prompts s in
  (s, Ok (JObj [("prompts", JList prompts_list)])).

Definition _handle_prompts_get : method_handler := λ s params,
  match
    prompt_name ← Py.get params "name" JNull;
    arguments ← Py.get params "arguments" (JObj []);
    k ← Py.hash prompt_name;
    Ok (k, arguments)
  with
  | Raise e => (s, Raise e)
  | Ok (k, arguments) =>
      match Py.find k (prompts s) with
      | None => (s, Raise (ValueError ("Prompt not found: " +:+ Py.str k)))
      | Some (prompt, handler) =>
          let s := call (PromptHandler (Py.str k)) s in
          match handler arguments with
          | Raise e => (s, Raise e)
          | Ok messages =>
              (s, Ok (JObj [("description", JStr (prompt_description prompt));
                            ("messages", messages)]))
          end
      end
  end.

(** [self.methods] *)
Definition methods : list (string * method_handler) :=
  [("initialize", _handle_initialize);
   ("tools/list", _handle_tools_list);
   ("tools/call", _handle_tools_call);
   ("resources/list", _handle_resources_list);
   ("resources/read", _handle_resources_read);
   ("prompts/list", _handle_prompts_list);
   ("prompts/get", _handle_prompts_get)].

(** [data] is a dict or [None]; [if data:] skips [None] and the empty dict. *)
Definition _create_error_response (request_id : json) (code : ErrorCode)
    (message : string) (data : option (list (string * json))) : json :=
  let error := [("code", JInt (value code)); ("message", JStr message)] in
  let error :=
    match data with
    | Some (entry :: entries) => Py.assoc_set "data" (JObj (entry :: entries)) error
    | _ => error
    end in
  JObj [("jsonrpc", JStr "2.0"); ("id", request_id); ("error", JObj error)].

Definition _create_success_response (request_id result : json) : json :=
  JObj [("jsonrpc", JStr "2.0"); ("id", request_id); ("result", result)].

(** Lines 273 to 275 raise when [json.dumps] cannot encode the message
    ([ValueError] on an integer of more digits than the interpreter
    converts, [RecursionError] on a value nested too deep) or when the
    write to [sys.stdout] fails (the pipe has been closed).  Neither is
    modelled: the functions that write take the parameter [fault], and
    [fault written message] is the exception that these lines raise on
    [message] when [written] is what has been written before, [None] when
    the message is written. *)
Definition write_fault := list json → json → option exn.

(** [_write_message]: the server afterwards and the exception raised, if
    any. *)
Definition _write_message (fault : write_fault) (message : json)
    (s : MCPServer) : MCPServer * option exn :=
  match fault (stdout s) message with
  | Some e => (s, Some e)
  | None => (set_stdout (stdout s ++ [message]) s, None)
  end.

Definition _send_notification (fault : write_fault) (method : string)
    (params : json) (s : MCPServer) : MCPServer * option exn :=
  _write_message fault
    (JObj [("jsonrpc", JStr "2.0"); ("method", JStr method); ("params", params)]) s.

(** [x is None] *)
Definition is_None (j : json) : bool :=
  match j with JNull => true | _ => false end.

(** [j == text] for a [str] literal *)
Definition eq_str (j : json) (text : string) : bool :=
  match j with JStr s => bool_decide (s = text) | _ => false end.

(** [handle_request]: the reply, [None] for no reply, or the exception
    that escapes the function. *)
Definition handle_request (s : MCPServer) (request : json)
  : MCPServer * outcome (option json) :=
  match
    request_id ← Py.get request "id" JNull;
    method ← Py.get request "method" JNull;
    params ← Py.get request "params" (JObj []);
    Ok (request_id, method, params)
  with
  | Raise e => (s, Raise e)
  | Ok (request_id, method, params) =>
      let is_notification := is_None request_id in
      if eq_str method "notifications/initialized" then (s, Ok None)
      else
        match Py.hash method with
        | Raise e => (s, Raise e)
        | Ok k =>
            match Py.find k methods with
            | None =>
                if is_notification then (s, Ok None)
                else (s, Ok (Some (_create_error_response request_id
                                     METHOD_NOT_FOUND
                                     ("Method not found: " +:+ Py.str k)
                                     (Some [("method", method)]))))
            | Some handler =>
                let '(s, r) := handler (call (MethodHandler (Py.str k)) s) params in
                match r with
                | Ok result =>
                    if is_notification then (s, Ok None)
                    else (s, Ok (Some (_create_success_response request_id result)))
                | Raise e =>
                    if is_ValueError e then
                      if is_notification then (s, Ok None)
                      else (s, Ok (Some (_create_error_response request_id
                                           INVALID_PARAMS (Py.exn_str e) None)))
                    else
                      if is_notification then (s, Ok None)
                      else (s, Ok (Some (_create_error_response request_id
                                           INTERNAL_ERROR "Internal server error"
                                           (Some [("details", JStr (Py.exn_str e))]))))
                end
            end
        end
  end.

(** One turn of the loop of [run]: the server afterwards, and the
    exception, if any, that reaches the outer [except Exception] (which
    logs it and calls [sys.exit(1)]).  The inner [except] catches
    [JSONDecodeError] only; an exception of the iteration, another
    exception of [json.loads], one that leaves [handle_request] and one of
    [_write_message] all reach the outer clause. *)
Definition run_line (fault : write_fault) (s : MCPServer) (line : wire_line)
  : MCPServer * option exn :=
  match line with
  | Garbled e => (s, Some e)
  | Blank => (s, None)
  | Malformed =>
      let error_response :=
        _create_error_response JNull PARSE_ERROR "Parse error" None in
      _write_message fault error_response s
  | Refused e => (s, Some e)
  | Decoded request =>
      let '(s, r) := handle_request s request in
      match r with
      | Raise e => (s, Some e)
      | Ok None => (s, None)
      | Ok (Some response) =>
          if Py.truthy response then _write_message fault response s
          else (s, None)
      end
  end.

(** [run] on what the iteration over [sys.stdin] yields before the stream
    is exhausted: the server at the end of the loop, and the exception
    that ended the loop early, if any. *)
Fixpoint run (fault : write_fault) (s : MCPServer) (lines : list wire_line)
  : MCPServer * option exn :=
  match lines with
  | [] => (s, None)
  | line :: lines =>
      match run_line fault s line with
      | (s, None) => run fault s lines
      | (s, Some e) => (s, Some e)
      end
  end.

(** No method reads or writes [stdout]: a method run on a server with
    another [stdout] does the same and leaves that [stdout] in place. *)
Definition stdout_blind (handler : method_handler) : Prop :=
  ∀ s params o,
    handler (set_stdout o s) params =
      (set_stdout o (handler s params).1, (handler s params).2).

(** The reply of [run] to a line that does not decode *)
Definition parse_error_response : json :=
  _create_error_response JNull PARSE_ERROR "Parse error" None.

End Server.

(** ** The client: [mcp_client.py] *)

Module Client.

(** [subprocess.Popen] as the client uses it: the documents written to
    the child's stdin so far, and whether the child still holds its end of
    the pipes. *)
Record Popen := {
  stdin : list json;
  alive : bool }.

(** The fields of [MCPClient].  A [Queue] object is known by its address,
    its position in [queues]; [queues] is not a field of the class but the
    part of the heap that holds the [Queue] objects created so far, each
    with the messages put and not yet taken. *)
Record MCPClient := {
  process : option Popen;
  next_id : Z;
  pending_requests : gmap Z nat;
  running : bool;
  server_info : option json;
  server_capabilities : option json;
  queues : list (list json) }.

Definition set_process p (c : MCPClient) : MCPClient :=
  {| process := p; next_id := next_id c;
     pending_requests := pending_requests c; running := running c;
     server_info := server_info c;
     server_capabilities := server_capabilities c; queues := queues c |}.

Definition set_next_id n (c : MCPClient) : MCPClient :=
  {| process := process c; next_id := n;
     pending_requests := pending_requests c; running := running c;
     server_info := server_info c;
     server_capabilities := server_capabilities c; queues := queues c |}.

Definition set_pending_requests m (c : MCPClient) : MCPClient :=
  {| process := process c; next_id := next_id c;
     pending_requests := m; running := running c;
     server_info := server_info c;
     server_capabilities := server_capabilities c; queues := queues c |}.

Definition set_running b (c : MCPClient) : MCPClient :=
  {| process := process c; next_id := next_id c;
     pending_requests := pending_requests c; running := b;
     server_info := server_info c;
     server_capabilities := server_capabilities c; queues := queues c |}.

Definition set_server_info i (c : MCPClient) : MCPClient :=
  {| process := process c; next_id := next_id c;
     pending_requests := pending_requests c; running := running c;
     server_info := i;
     server_capabilities := server_capabilities c; queues := queues c |}.

Definition set_server_capabilities i (c : MCPClient) : MCPClient :=
  {| process := process c; next_id := next_id c;
     pending_requests := pending_requests c; running := running c;
     server_info := server_info c;
     server_capabilities := i; queues := queues c |}.

Definition set_queues q (c : MCPClient) : MCPClient :=
  {| process := process c; next_id := next_id c;
     pending_requests := pending_requests c; running := running c;
     server_info := server_info c;
     server_capabilities := server_capabilities c; queues := q |}.

(** [MCPClient.__init__] *)
Definition __init__ : MCPClient :=
  {| process := None; next_id := 1; pending_requests := ∅;
     running := false; server_info := None;
     server_capabilities := None; queues := [] |}.

(** [queue.put(message)] *)
Definition put (queue : nat) (message : json) (c : MCPClient) : MCPClient :=
  set_queues (alter (λ items, items ++ [message]) queue (queues c)) c.

(** [self.process.stdin.write(text + "\n")] and [flush()]: they raise
    once the child has exited. *)
Definition write (document : json) (c : MCPClient) : outcome MCPClient :=
  match process c with
  | None => Raise (Py.no_attribute JNull "stdin")
  | Some p =>
      if alive p then
        Ok (set_process (Some {| stdin := stdin p ++ [document];
                                 alive := alive p |}) c)
      else Raise (OtherException "[Errno 32] Broken pipe")
  end.

(** What a call of the client raises: an exception of a Python primitive
    that propagates as it is, [RuntimeError(msg)],
    [TimeoutError(f"Request timeout after {timeout}s")], and
    [RuntimeError(f"Server error: {message} (code: {code})")], kept by
    the two values it renders. *)
Inductive raised :=
| Builtin (e : exn)
| RuntimeError (msg : string)
| TimeoutError
| ServerError (message code : json).

(** Where a thread stands in [_send_request], with its local names.  A
    step runs one statement, or a group of statements of which only the
    last touches a shared object.
    - [Called]: line 180 is next;
    - [Allocating]: line 183;
    - [Incrementing]: line 184, the load of [self.next_id];
    - [Storing]: line 184, the store of the sum: [self.next_id += 1] is a
      load and a store, and other threads can run between the two;
    - [Registering]: lines 186 to 197;
    - [Sending]: lines 200 to 207;
    - [Waiting]: line 211, inside [response_queue.get];
    - [Expiring]: line 213, [Empty] has been caught;
    - [Cleanup]: lines 216 to 227, [get] has returned [response];
    - [Returned], [Raised]: the call is over. *)
Inductive frame :=
| Called (method : string) (params : option json)
| Allocating (method : string) (params : option json)
| Incrementing (method : string) (params : option json) (request_id : Z)
| Storing (method : string) (params : option json) (request_id : Z) (loaded : Z)
| Registering (method : string) (params : option json) (request_id : Z)
| Sending (request : json) (request_id : Z) (response_queue : nat)
| Waiting (request_id : Z) (response_queue : nat)
| Expiring (request_id : Z)
| Cleanup (request_id : Z) (response : json)
| Returned (result : json)
| Raised (e : raised).

(** Lines 220 to 227 *)
Definition check_response (response : json) : frame :=
  match Py.contains "error" response with
  | Raise e => Raised (Builtin e)
  | Ok true =>
      match
        error ← Py.getitem response "error";
        message ← Py.get error "message" JNull;
        code ← Py.get error "code" JNull;
        Ok (message, code)
      with
      | Raise e => Raised (Builtin e)
      | Ok (message, code) => Raised (ServerError message code)
      end
  | Ok false =>
      match Py.get response "result" (JObj []) with
      | Raise e => Raised (Builtin e)
      | Ok result => Returned result
      end
  end.

(** The request that lines 186 to 193 build *)
Definition request_of (request_id : Z) (method : string) (params : option json)
  : json :=
  let request := [("jsonrpc", JStr "2.0"); ("id", JInt request_id);
                  ("method", JStr method)] in
  JObj match params with
       | Some params => Py.assoc_set "params" params request
       | None => request
       end.

(** What has been written to the child's stdin *)
Definition wire (c : MCPClient) : list json :=
  match process c with
  | Some p => stdin p
  | None => []
  end.

(** The next step of a thread in [_send_request]; [None] when the thread
    cannot move: the call is over, or [get] finds the queue empty. *)
Definition step (c : MCPClient) (f : frame) : option (MCPClient * frame) :=
  match f with
  | Called method params =>
      match process c with
      | None => Some (c, Raised (RuntimeError "Client not connected"))
      | Some _ => Some (c, Allocating method params)
      end
  | Allocating method params =>
      Some (c, Incrementing method params (next_id c))
  | Incrementing method params request_id =>
      Some (c, Storing method params request_id (next_id c))
  | Storing method params request_id loaded =>
      Some (set_next_id (loaded + 1) c, Registering method params request_id)
  | Registering method params request_id =>
      let request := request_of request_id method params in
      let response_queue := length (queues c) in
      let c := set_queues (queues c ++ [[]]) c in
      let c := set_pending_requests
                 (<[request_id := response_queue]> (pending_requests c)) c in
      Some (c, Sending request request_id response_queue)
  | Sending request request_id response_queue =>
      match write request c with
      | Ok c => Some (c, Waiting request_id response_queue)
      | Raise e =>
          match pending_requests c !! request_id with
          | None => Some (c, Raised (Builtin (KeyError (KInt request_id))))
          | Some _ =>
              Some (set_pending_requests (delete request_id (pending_requests c)) c,
                    Raised (RuntimeError ("Failed to send request: " +:+ Py.exn_str e)))
          end
      end
  | Waiting request_id response_queue =>
      match queues c !! response_queue with
      | Some (response :: items) =>
          Some (set_queues (<[response_queue := items]> (queues c)) c,
                Cleanup request_id response)
      | _ => None
      end
  | Expiring request_id =>
      match pending_requests c !! request_id with
      | None => Some (c, Raised (Builtin (KeyError (KInt request_id))))
      | Some _ =>
          Some (set_pending_requests (delete request_id (pending_requests c)) c,
                Raised TimeoutError)
      end
  | Cleanup request_id response =>
      let c :=
        match pending_requests c !! request_id with
        | Some _ => set_pending_requests (delete request_id (pending_requests c)) c
        | None => c
        end in
      Some (c, check_response response)
  | Returned _ | Raised _ => None
  end.

(** The timeout of [get] runs out: [Empty] is raised when the queue is
    still empty. *)
Definition elapse (c : MCPClient) (f : frame) : option (MCPClient * frame) :=
  match f with
  | Waiting request_id response_queue =>
      match queues c !! response_queue with
      | Some [] => Some (c, Expiring request_id)
      | _ => None
      end
  | _ => None
  end.

(** [_handle_message]: the client afterwards, and the exception that
    leaves the function, if any. *)
Definition _handle_message (c : MCPClient) (message : json)
  : MCPClient * outcome () :=
  match
    has_id ← Py.contains "id" message;
    queue ← (if has_id : bool then
               request_id ← Py.getitem message "id";
               k ← Py.hash request_id;
               Ok (match Py.int_key k with
                   | Some request_id => pending_requests c !! request_id
                   | None => None
                   end)
             else Ok None);
    match queue with
    | Some queue => Ok (Some queue)
    | None =>
        has_method ← Py.contains "method" message;
        if has_method && negb has_id then
          method ← Py.get message "method" JNull;
          params ← Py.get message "params" (JObj []);
          Ok None
        else Ok None
    end
  with
  | Raise e => (c, Raise e)
  | Ok (Some queue) => (put queue message c, Ok ())
  | Ok None => (c, Ok ())
  end.

(** The body of the loop of [_read_loop], after the test of
    [self.running], on a line that the iteration has yielded: both inner
    [except] clauses log and go on, the first on [JSONDecodeError], the
    second on any other exception of [json.loads] or of
    [_handle_message].  On [Garbled] the body is not reached. *)
Definition read_line (c : MCPClient) (line : wire_line) : MCPClient :=
  match line with
  | Blank => c
  | Malformed => c
  | Refused e => c
  | Decoded message => fst (_handle_message c message)
  | Garbled e => c
  end.

(** The loop of [_read_loop]: it ends when the stream is exhausted, when
    [self.running] is found false, and when the iteration raises, which
    the outer [except] clause logs. *)
Fixpoint read_lines (c : MCPClient) (lines : list wire_line) : MCPClient :=
  match lines with
  | [] => c
  | Garbled e :: lines => c
  | line :: lines =>
      if running c then read_lines (read_line c line) lines else c
  end.

(** [_read_loop] on what the iteration over the child's stdout yields
    before the stream is closed. *)
Definition _read_loop (c : MCPClient) (lines : list wire_line) : MCPClient :=
  match process c with
  | None => c
  | Some _ => read_lines c lines
  end.

(** The queue that [pending_requests] holds under the "id" member of a
    document: there is one when the document is an object, the member is
    hashable and equal to a key of the table. *)
Definition slot_of (c : MCPClient) (message : json) : option nat :=
  match message with
  | JObj kv =>
      match Py.assoc "id" kv with
      | Some request_id =>
          match Py.hash request_id with
          | Ok k =>
              match Py.int_key k with
              | Some request_id => pending_requests c !! request_id
              | None => None
              end
          | Raise e => None
          end
      | None => None
      end
  | _ => None
  end.

(** The documents for [queue] that the iteration yields, in the order of
    the stream, up to the point where the iteration raises. *)
Fixpoint arrivals (c : MCPClient) (queue : nat) (lines : list wire_line)
  : list json :=
  match lines with
  | [] => []
  | Garbled e :: lines => []
  | Decoded message :: lines =>
      if decide (slot_of c message = Some queue)
      then message :: arrivals c queue lines
      else arrivals c queue lines
  | _ :: lines => arrivals c queue lines
  end.

(** [start], lines 50 to 73: the child is spawned and the reader thread
    started; [_initialize] follows. *)
Definition spawn (c : MCPClient) : MCPClient :=
  set_running true (set_process (Some {| stdin := []; alive := true |}) c).

(** [stop]: the child is terminated (or killed); joining the reader
    thread leaves the client as it is. *)
Definition stop (c : MCPClient) : MCPClient :=
  let c := set_running false c in
  match process c with
  | Some p => set_process (Some {| stdin := stdin p; alive := false |}) c
  | None => c
  end.

Definition _send_notification (c : MCPClient) (method : string)
    (params : option json) : MCPClient * option raised :=
  match process c with
  | None => (c, Some (RuntimeError "Client not connected"))
  | Some _ =>
      let notification := [("jsonrpc", JStr "2.0"); ("method", JStr method)] in
      let notification :=
        match params with
        | Some params => Py.assoc_set "params" params notification
        | None => notification
        end in
      match write (JObj notification) c with
      | Ok c => (c, None)
      | Raise e => (c, Some (Builtin e))
      end
  end.

(** The parameters of the [initialize] request *)
Definition initialize_params : json :=
  JObj [("protocolVersion", JStr "2024-11-05");
        ("capabilities", JObj [("roots", JObj [("listChanged", JBool true)]);
                               ("sampling", JObj [])]);
        ("clientInfo", JObj [("name", JStr "mcp-python-client");
                             ("version", JStr "1.0.0")])].

(** [_initialize] begins as the call
    [_send_request("initialize", initialize_params)]. *)
Definition _initialize : frame := Called "initialize" (Some initialize_params).

(** [_initialize], lines 266 to 274, once that call has returned [result]. *)
Definition _initialize_resume (c : MCPClient) (result : json)
  : MCPClient * option raised :=
  match Py.get result "serverInfo" (JObj []) with
  | Raise e => (c, Some (Builtin e))
  | Ok info =>
      let c := set_server_info (Some info) c in
      match Py.get result "capabilities" (JObj []) with
      | Raise e => (c, Some (Builtin e))
      | Ok capabilities =>
          let c := set_server_capabilities (Some capabilities) c in
          match _ ← Py.get info "name" JNull; Py.get info "version" JNull with
          | Raise e => (c, Some (Builtin e))
          | Ok _ => _send_notification c "notifications/initialized" None
          end
      end
  end.

(** ** Threads

    The reader thread and the threads that are inside [_send_request]
    run interleaved.  An event is a step of one of them:
    - [Run t]: thread [t] takes its next step in [_send_request];
    - [Elapse t]: the timeout of thread [t]'s [get] runs out;
    - [Receive line]: the iteration of the reader thread yields [line]
      and the loop body runs on it, or the iteration raises and the loop
      ends;
    - [Eof]: the child's stdout is closed and the reader's loop ends;
    - [Stop]: some thread runs [stop]. *)
Inductive event :=
| Run (t : nat)
| Elapse (t : nat)
| Receive (line : wire_line)
| Eof
| Stop.

(** The client object, the callers, and whether the reader thread is
    still in its loop. *)
Record system := {
  self : MCPClient;
  threads : list frame;
  reader : bool }.

Definition move (t : nat) (w : system) (next : option (MCPClient * frame))
  : system :=
  match next with
  | Some (c, f) =>
      {| self := c; threads := <[t := f]> (threads w); reader := reader w |}
  | None => w
  end.

(** An event that is not enabled leaves the system as it is. *)
Definition exec (w : system) (e : event) : system :=
  match e with
  | Run t =>
      match threads w !! t with
      | Some f => move t w (step (self w) f)
      | None => w
      end
  | Elapse t =>
      match threads w !! t with
      | Some f => move t w (elapse (self w) f)
      | None => w
      end
  | Receive line =>
      if reader w then
        match line with
        | Garbled e =>
            {| self := self w; threads := threads w; reader := false |}
        | _ =>
            if running (self w) then
              {| self := read_line (self w) line; threads := threads w;
                 reader := true |}
            else {| self := self w; threads := threads w; reader := false |}
        end
      else w
  | Eof => {| self := self w; threads := threads w; reader := false |}
  | Stop => {| self := stop (self w); threads := threads w; reader := reader w |}
  end.

Definition execs (w : system) (schedule : list event) : system :=
  foldl exec w schedule.

(** ** The calls of the API

    Each is a call of [_send_request] with the method and parameters given
    here, followed by the lines given as [..._resume] on what that call
    returns. *)

Definition list_tools : frame := Called "tools/list" None.

Definition list_tools_resume (result : json) : outcome json :=
  Py.get result "tools" (JList []).

Definition call_tool (name : string) (arguments : json) : frame :=
  Called "tools/call"
    (Some (JObj [("name", JStr name); ("arguments", arguments)])).

(** [x[0].get("text", "")] when [x] is true and [len(x) > 0], else [""]:
    lines 300 to 303 and 323 to 326. *)
Definition first_text (x : json) : outcome json :=
  if Py.truthy x then
    n ← Py.len x;
    if bool_decide (0 < n) then
      item ← Py.item0 x;
      Py.get item "text" (JStr "")
    else Ok (JStr "")
  else Ok (JStr "").

Definition call_tool_resume (result : json) : outcome json :=
  content ← Py.get result "content" (JList []);
  first_text content.

Definition list_resources : frame := Called "resources/list" None.

Definition list_resources_resume (result : json) : outcome json :=
  Py.get result "resources" (JList []).

Definition read_resource (uri : string) : frame :=
  Called "resources/read" (Some (JObj [("uri", JStr uri)])).

Definition read_resource_resume (result : json) : outcome json :=
  contents ← Py.get result "contents" (JList []);
  first_text contents.

Definition list_prompts : frame := Called "prompts/list" None.

Definition list_prompts_resume (result : json) : outcome json :=
  Py.get result "prompts" (JList []).

(** [arguments] is a dict or [None]; [if arguments:] skips [None] and the
    empty dict. *)
Definition get_prompt (name : string) (arguments : option json) : frame :=
  let params := [("name", JStr name)] in
  let params :=
    match arguments with
    | Some arguments =>
        if Py.truthy arguments then Py.assoc_set "arguments" arguments params
        else params
    | None => params
    end in
  Called "prompts/get" (Some (JObj params)).

(** The identifier that a thread holds in [request_id], once line 183 has
    run and until the call is over. *)
Definition frame_id (f : frame) : option Z :=
  match f with
  | Incrementing _ _ request_id | Storing _ _ request_id _
  | Registering _ _ request_id
  | Sending _ request_id _ | Waiting request_id _
  | Expiring request_id | Cleanup request_id _ => Some request_id
  | _ => None
  end.

Definition is_over (f : frame) : bool :=
  match f with
  | Returned _ | Raised _ => true
  | _ => false
  end.

(** The threads [calls] enter [_send_request] on client [c], whose reader
    thread is in its loop. *)
Definition calling (c : MCPClient) (calls : list frame) : system :=
  {| self := c; threads := calls; reader := true |}.

(** What a thread holds, as its identifier or as the value of [next_id]
    that it has loaded at line 184, is [n] or more. *)
Definition not_below (n : Z) (f : frame) : Prop :=
  match f with
  | Storing _ _ request_id loaded => (n ≤ request_id)%Z ∧ (n ≤ loaded)%Z
  | _ => ∀ request_id, frame_id f = Some request_id → (n ≤ request_id)%Z
  end.

(** The client once a thread has run lines 180 to 204 of a call with no
    other thread in between: the identifier is taken, the queue registered
    and the request written to the child [p]. *)
Definition sent (c : MCPClient) (p : Popen) (method : string)
    (params : option json) : MCPClient :=
  {| process := Some {| stdin := stdin p ++ [request_of (next_id c) method params];
                        alive := true |};
     next_id := next_id c + 1;
     pending_requests := <[next_id c := length (queues c)]> (pending_requests c);
     running := running c;
     server_info := server_info c;
     server_capabilities := server_capabilities c;
     queues := queues c ++ [[]] |}.

(** A client right after the lines of [start] that come before
    [_initialize]. *)
Definition connected : MCPClient := spawn __init__.

End Client.

(** ** What a reply says *)

(** [reply["error"]["code"]] and [reply["error"]["message"]], when present *)
Definition error_code (reply : json) : option json :=
  match reply with
  | JObj kv =>
      match Py.assoc "error" kv with
      | Some (JObj error) => Py.assoc "code" error
      | _ => None
      end
  | _ => None
  end.

Definition error_message (reply : json) : option json :=
  match reply with
  | JObj kv =>
      match Py.assoc "error" kv with
      | Some (JObj error) => Py.assoc "message" error
      | _ => None
      end
  | _ => None
  end.

(** A server with two tools, one that answers and one that fails. *)
Module Fixture.

Definition echo : Server.tool_handler := λ arguments,
  match Py.get arguments "v" JNull with
  | Ok (JStr v) => Ok v
  | Ok _ => Raise (TypeError "v must be a string")
  | Raise e => Raise e
  end.

Definition echo_twice : Server.tool_handler := λ arguments,
  match echo arguments with
  | Ok text => Ok (text +:+ text)
  | Raise e => Raise e
  end.

Definition boom : Server.tool_handler := λ arguments,
  Raise (OtherException "disk on fire").

Definition server : Server.MCPServer :=
  Server.register_tool "boom" "always fails" (JObj []) boom
    (Server.register_tool "echo" "returns v" (JObj []) echo
       (Server.__init__ "example-server" "1.0.0")).

(** Every message is written. *)
Definition no_fault : Server.write_fault := λ written message, None.

(** A message that holds an integer of more than 4300 digits *)
Fixpoint long_int (j : json) : bool :=
  match j with
  | JInt z => bool_decide (10 ^ 4300 ≤ Z.abs z)%Z
  | JList l => existsb long_int l
  | JObj kv => existsb (λ entry, long_int entry.2) kv
  | _ => false
  end.

(** [json.dumps] refuses a message that holds such an integer, the
    interpreter's limit on the conversion of integers to text, and every
    other message is written. *)
Definition digit_limit : Server.write_fault := λ written message,
  if long_int message
  then Some (ValueError "Exceeds the limit (4300 digits) for integer string conversion; use sys.set_int_max_str_digits() to increase the limit")
  else None.

Definition request (id : Z) (method : string) (params : json) : json :=
  JObj [("jsonrpc", JStr "2.0"); ("id", JInt id); ("method", JStr method);
        ("params", params)].

(** One thread has called [list_tools] on a client that has just been
    connected and has run up to its wait for the reply. *)
Definition waiting : Client.system :=
  Client.execs
    (Client.calling Client.connected [Client.Called "tools/list" None])
    (replicate 6 (Client.Run 0)).

Definition reply (id : Z) (result : json) : json :=
  Server._create_success_response (JInt id) result.

(** Two threads that read [next_id] before either has incremented it: both
    take identifier 1, and the second registration replaces the first. *)
Definition overlapping : list Client.event :=
  [Client.Run 0; Client.Run 1; Client.Run 0; Client.Run 1;
   Client.Run 0; Client.Run 1; Client.Run 0; Client.Run 1;
   Client.Run 0; Client.Run 1; Client.Run 0; Client.Run 1].

End Fixture.

(** ** Two calls in flight

    What holds of a thread that is bound to receive the reply [x] for the
    identifier [id], while another thread uses the identifier [other]. *)
Module TwoCalls.

Import Client.

(** The queue a thread holds in [response_queue] *)
Definition queue_of (f : frame) : option nat :=
  match f with
  | Sending _ _ queue | Waiting _ queue => Some queue
  | _ => None
  end.

(** Line 184 has run. *)
Definition allocated (f : frame) : bool :=
  match f with
  | Called _ _ | Allocating _ _ | Incrementing _ _ _ | Storing _ _ _ _ => false
  | _ => true
  end.

(** The thread will take, holds or has used identifier [id]; the queue it
    holds is the one registered under [id]; the response it holds is [x];
    and when its call is over, it ended as a call ends on [x]. *)
Definition frame_ok (c : MCPClient) (id : Z) (x : json) (f : frame) : Prop :=
  match f with
  | Called _ _ | Allocating _ _ => next_id c = id
  | Incrementing _ _ request_id | Storing _ _ request_id _
  | Registering _ _ request_id => request_id = id
  | Sending _ request_id queue | Waiting request_id queue =>
      request_id = id ∧ pending_requests c !! id = Some queue
  | Cleanup request_id response => request_id = id ∧ response = x
  | Expiring _ => False
  | Returned _ | Raised _ => f = check_response x
  end.

(** The queue registered under [id], if there is one, exists, holds
    nothing but copies of [x], and is not the queue registered under
    [other]. *)
Definition slot_ok (c : MCPClient) (id : Z) (x : json) (other : Z) : Prop :=
  ∀ queue,
    pending_requests c !! id = Some queue →
    (∃ items, queues c !! queue = Some items ∧ Forall (eq x) items) ∧
    pending_requests c !! other ≠ Some queue.

(** The events of two calls and of the reader thread that handles their
    replies [x1] and [x2], as often and in whatever order. *)
Definition allowed (x1 x2 : json) (e : event) : Prop :=
  match e with
  | Run _ => True
  | Receive (Decoded x) => x = x1 ∨ x = x2
  | _ => False
  end.

(** The invariant of a system of two threads, the first past line 184. *)
Definition inv (id1 id2 : Z) (x1 x2 : json) (w : system) : Prop :=
  ∃ f1 f2 p,
    threads w = [f1; f2] ∧
    process (self w) = Some p ∧ alive p = true ∧
    allocated f1 = true ∧
    frame_ok (self w) id1 x1 f1 ∧
    frame_ok (self w) id2 x2 f2 ∧
    slot_ok (self w) id1 x1 id2 ∧
    slot_ok (self w) id2 x2 id1.

End TwoCalls.

(** * Properties of the server *)

Section ServerFacts.

Import Server.

Lemma registered_not_initialized_notification method handler :
  Py.assoc method methods = Some handler →
  method ≠ "notifications/initialized".
Proof. intros H ->. vm_compute in H. discriminate. Qed.

Lemma eq_str_false (method text : string) :
  method ≠ text → eq_str (JStr method) text = false.
Proof. intros H. unfold eq_str. by apply bool_decide_eq_false. Qed.

(** The head of [handle_request] on a request that has an id and a
    method name. *)
Lemma handle_request_unfold s kv request_id method :
  Py.assoc "id" kv = Some request_id →
  Py.assoc "method" kv = Some (JStr method) →
  method ≠ "notifications/initialized" →
  handle_request s (JObj kv) =
    match Py.assoc method methods with
    | None =>
        if is_None request_id then (s, Ok None)
        else (s, Ok (Some (_create_error_response request_id METHOD_NOT_FOUND
                             ("Method not found: " +:+ method)
                             (Some [("method", JStr method)]))))
    | Some handler =>
        let '(s, r) := handler (call (MethodHandler method) s)
                         (default (JObj []) (Py.assoc "params" kv)) in
        match r with
        | Ok result =>
            if is_None request_id then (s, Ok None)
            else (s, Ok (Some (_create_success_response request_id result)))
        | Raise e =>
            if is_ValueError e then
              if is_None request_id then (s, Ok None)
              else (s, Ok (Some (_create_error_response request_id
                                   INVALID_PARAMS (Py.exn_str e) None)))
            else
              if is_None request_id then (s, Ok None)
              else (s, Ok (Some (_create_error_response request_id
                                   INTERNAL_ERROR "Internal server error"
                                   (Some [("details", JStr (Py.exn_str e))]))))
        end
    end.
Proof.
  intros Hid Hmethod Hne. unfold handle_request. cbn.
  rewrite Hid, Hmethod. cbn. by rewrite bool_decide_eq_false_2.
Qed.

Lemma handle_request_object s kv :
  handle_request s (JObj kv) =
    let request_id := default JNull (Py.assoc "id" kv) in
    let method := default JNull (Py.assoc "method" kv) in
    let params := default (JObj []) (Py.assoc "params" kv) in
    if eq_str method "notifications/initialized" then (s, Ok None)
    else
      match Py.hash method with
      | Raise e => (s, Raise e)
      | Ok k =>
          match Py.find k methods with
          | None =>
              if is_None request_id then (s, Ok None)
              else (s, Ok (Some (_create_error_response request_id
                                   METHOD_NOT_FOUND
                                   ("Method not found: " +:+ Py.str k)
                                   (Some [("method", method)]))))
          | Some handler =>
              let '(s, r) := handler (call (MethodHandler (Py.str k)) s) params in
              match r with
              | Ok result =>
                  if is_None request_id then (s, Ok None)
                  else (s, Ok (Some (_create_success_response request_id result)))
              | Raise e =>
                  if is_ValueError e then
                    if is_None request_id then (s, Ok None)
                    else (s, Ok (Some (_create_error_response request_id
                                         INVALID_PARAMS (Py.exn_str e) None)))
                  else
                    if is_None request_id then (s, Ok None)
                    else (s, Ok (Some (_create_error_response request_id
                                         INTERNAL_ERROR "Internal server error"
                                         (Some [("details", JStr (Py.exn_str e))]))))
              end
          end
      end.
Proof. reflexivity. Qed.

Lemma is_None_false (j : json) : j ≠ JNull → is_None j = false.
Proof. by destruct j. Qed.

Lemma methods_tools_call :
  Py.assoc "tools/call" methods = Some _handle_tools_call.
Proof. reflexivity. Qed.

(** [_handle_tools_call] on parameters that name a tool by a string. *)
Lemma _handle_tools_call_unfold s params name :
  Py.assoc "name" params = Some (JStr name) →
  _handle_tools_call s (JObj params) =
    match Py.assoc name (tools s) with
    | None => (s, Raise (ValueError ("Tool not found: " +:+ name)))
    | Some (_, handler) =>
        let s := call (ToolHandler name) s in
        match handler (default (JObj []) (Py.assoc "arguments" params)) with
        | Ok result => (s, Ok (text_content result false))
        | Raise e => (s, Ok (text_content ("Error: " +:+ Py.exn_str e) true))
        end
    end.
Proof. intros Hname. unfold _handle_tools_call, Py.get. by rewrite Hname. Qed.

(** C5, as amended.  A request with a non-null id whose method, the
    "method" member or [None] without one, is hashable, is no registered
    name and is not "notifications/initialized" is answered by an error
    reply with code -32601 whose message is "Method not found: " followed
    by [str(method)]; the server is left as it was, so no handler has been
    invoked.  A message whose method is "notifications/initialized" gets
    no reply, also when it carries an id, and leaves the server as it
    was. *)
Theorem C5_unknown_method_rejected s kv request_id :
  Py.assoc "id" kv = Some request_id →
  request_id ≠ JNull →
  let method := default JNull (Py.assoc "method" kv) in
  (∀ k,
     Py.hash method = Ok k →
     Py.find k methods = None →
     method ≠ JStr "notifications/initialized" →
     handle_request s (JObj kv) =
       (s, Ok (Some (JObj [("jsonrpc", JStr "2.0");
                           ("id", request_id);
                           ("error",
                            JObj [("code", JInt (-32601));
                                  ("message",
                                   JStr ("Method not found: " +:+ Py.str k));
                                  ("data", JObj [("method", method)])])])))) ∧
  (method = JStr "notifications/initialized" →
   handle_request s (JObj kv) = (s, Ok None)).
Proof.
  intros Hid Hnull method. rewrite handle_request_object. cbv zeta.
  rewrite Hid. cbn [default from_option id]. fold method.
  rewrite (is_None_false _ Hnull). split.
  - intros k Hhash Hunknown Hne.
    assert (Heq : eq_str method "notifications/initialized" = false).
    { destruct method; try done. cbn. apply bool_decide_eq_false. congruence. }
    by rewrite Heq, Hhash, Hunknown.
  - by intros ->.
Qed.

Lemma C5_unknown_method_rejected_witness :
  (∀ k,
     Py.hash (JStr "ghost") = Ok k →
     Py.find k methods = None →
     JStr "ghost" ≠ JStr "notifications/initialized" →
     handle_request Fixture.server (Fixture.request 7 "ghost" (JObj [])) =
       (Fixture.server,
        Ok (Some (JObj [("jsonrpc", JStr "2.0");
                        ("id", JInt 7);
                        ("error",
                         JObj [("code", JInt (-32601));
                               ("message",
                                JStr ("Method not found: " +:+ Py.str k));
                               ("data", JObj [("method", JStr "ghost")])])])))) ∧
  (JStr "ghost" = JStr "notifications/initialized" →
   handle_request Fixture.server (Fixture.request 7 "ghost" (JObj [])) =
     (Fixture.server, Ok None)).
Proof.
  apply (C5_unknown_method_rejected Fixture.server
           [("jsonrpc", JStr "2.0"); ("id", JInt 7); ("method", JStr "ghost");
            ("params", JObj [])]
           (JInt 7)); [reflexivity | discriminate].
Defined.

(** The two sentences of C5 at work: an unknown method that is a string, one
    that is a number, and "notifications/initialized" with an id. *)
Example unknown_methods :
  (handle_request Fixture.server (Fixture.request 7 "ghost" (JObj []))).2 =
    Ok (Some (JObj [("jsonrpc", JStr "2.0");
                    ("id", JInt 7);
                    ("error",
                     JObj [("code", JInt (-32601));
                           ("message", JStr "Method not found: ghost");
                           ("data", JObj [("method", JStr "ghost")])])])) ∧
  (handle_request Fixture.server
     (JObj [("jsonrpc", JStr "2.0"); ("id", JInt 8); ("method", JInt 5)])).2 =
    Ok (Some (JObj [("jsonrpc", JStr "2.0");
                    ("id", JInt 8);
                    ("error",
                     JObj [("code", JInt (-32601));
                           ("message", JStr "Method not found: 5");
                           ("data", JObj [("method", JInt 5)])])])) ∧
  handle_request Fixture.server
    (Fixture.request 9 "notifications/initialized" (JObj [])) =
    (Fixture.server, Ok None).
Proof. repeat split; reflexivity. Qed.

(** C5 as the claim states it fails: "notifications/initialized" is not a
    registered method, and a request for it that carries id 1 gets no
    reply at all. *)
Lemma C5_counterexample :
  ¬ ∀ s kv request_id method,
      Py.assoc "id" kv = Some request_id →
      request_id ≠ JNull →
      Py.assoc "method" kv = Some (JStr method) →
      Py.assoc method methods = None →
      ∃ s' reply,
        handle_request s (JObj kv) = (s', Ok (Some reply)) ∧
        error_code reply = Some (JInt (-32601)).
Proof.
  intros claim.
  destruct (claim Fixture.server
              [("jsonrpc", JStr "2.0"); ("id", JInt 1);
               ("method", JStr "notifications/initialized")]
              (JInt 1) "notifications/initialized")
    as (s' & reply & Hreply & _); [reflexivity | discriminate | reflexivity | reflexivity |].
  discriminate Hreply.
Qed.

(** C6.  When the handler of a registered method raises on a request with
    a non-null id, the reply is an error reply: code -32602 with [str(e)]
    as message and no data for a [ValueError]; for any other exception
    code -32603 with the fixed message "Internal server error", [str(e)]
    appearing under "details" in the data and nowhere else. *)
Theorem C6_handler_fault_converted s kv request_id method handler s' e :
  Py.assoc "id" kv = Some request_id →
  request_id ≠ JNull →
  Py.assoc "method" kv = Some (JStr method) →
  Py.assoc method methods = Some handler →
  handler (call (MethodHandler method) s)
    (default (JObj []) (Py.assoc "params" kv)) = (s', Raise e) →
  handle_request s (JObj kv) =
    (s', Ok (Some (JObj [("jsonrpc", JStr "2.0");
                         ("id", request_id);
                         ("error",
                          if is_ValueError e then
                            JObj [("code", JInt (-32602));
                                  ("message", JStr (Py.exn_str e))]
                          else
                            JObj [("code", JInt (-32603));
                                  ("message", JStr "Internal server error");
                                  ("data", JObj [("details", JStr (Py.exn_str e))])])]))).
Proof.
  intros Hid Hnull Hmethod Hreg Hraise.
  rewrite (handle_request_unfold _ _ _ _ Hid Hmethod
             (registered_not_initialized_notification _ _ Hreg)).
  rewrite Hreg, Hraise, (is_None_false _ Hnull).
  by destruct (is_ValueError e).
Qed.

Lemma C6_handler_fault_converted_witness :
  handle_request Fixture.server
    (Fixture.request 3 "resources/read" (JObj [("uri", JStr "file:///nowhere")])) =
    (call (MethodHandler "resources/read") Fixture.server,
     Ok (Some (JObj [("jsonrpc", JStr "2.0");
                     ("id", JInt 3);
                     ("error",
                      JObj [("code", JInt (-32602));
                            ("message",
                             JStr "Resource not found: file:///nowhere")])]))) ∧
  handle_request Fixture.server (Fixture.request 4 "prompts/get" (JList [])) =
    (call (MethodHandler "prompts/get") Fixture.server,
     Ok (Some (JObj [("jsonrpc", JStr "2.0");
                     ("id", JInt 4);
                     ("error",
                      JObj [("code", JInt (-32603));
                            ("message", JStr "Internal server error");
                            ("data",
                             JObj [("details",
                                    JStr "'list' object has no attribute 'get'")])])]))).
Proof.
  split.
  - apply (C6_handler_fault_converted Fixture.server _ (JInt 3) "resources/read"
             _handle_resources_read _
             (ValueError "Resource not found: file:///nowhere"));
      [reflexivity | discriminate | reflexivity | reflexivity | reflexivity].
  - apply (C6_handler_fault_converted Fixture.server _ (JInt 4) "prompts/get"
             _handle_prompts_get _
             (AttributeError "'list' object has no attribute 'get'"));
      [reflexivity | discriminate | reflexivity | reflexivity | reflexivity].
Defined.

(** C9.  A tools/call request with a non-null id that names a registered
    tool whose handler raises [e] gets a success reply: a [result] with
    [isError] true and the text "Error: " followed by [str(e)]. *)
Theorem C9_tool_fault_is_result s kv request_id params name tool handler e :
  Py.assoc "id" kv = Some request_id →
  request_id ≠ JNull →
  Py.assoc "method" kv = Some (JStr "tools/call") →
  Py.assoc "params" kv = Some (JObj params) →
  Py.assoc "name" params = Some (JStr name) →
  Py.assoc name (tools s) = Some (tool, handler) →
  handler (default (JObj []) (Py.assoc "arguments" params)) = Raise e →
  handle_request s (JObj kv) =
    (call (ToolHandler name) (call (MethodHandler "tools/call") s),
     Ok (Some (JObj [("jsonrpc", JStr "2.0");
                     ("id", request_id);
                     ("result",
                      JObj [("content",
                             JList [JObj [("type", JStr "text");
                                          ("text", JStr ("Error: " +:+ Py.exn_str e))]]);
                            ("isError", JBool true)])]))).
Proof.
  intros Hid Hnull Hmethod Hparams Hname Htool Hraise.
  rewrite (handle_request_unfold _ _ _ _ Hid Hmethod) by discriminate.
  rewrite methods_tools_call, Hparams. cbn [default].
  rewrite (_handle_tools_call_unfold _ _ _ Hname). cbn [tools call].
  rewrite Htool. cbn zeta. rewrite Hraise.
  by rewrite (is_None_false _ Hnull).
Qed.

Lemma C9_tool_fault_is_result_witness :
  handle_request Fixture.server
    (Fixture.request 5 "tools/call" (JObj [("name", JStr "boom")])) =
    (call (ToolHandler "boom") (call (MethodHandler "tools/call") Fixture.server),
     Ok (Some (JObj [("jsonrpc", JStr "2.0");
                     ("id", JInt 5);
                     ("result",
                      JObj [("content",
                             JList [JObj [("type", JStr "text");
                                          ("text", JStr "Error: disk on fire")]]);
                            ("isError", JBool true)])]))).
Proof.
  apply (C9_tool_fault_is_result Fixture.server _ (JInt 5) [("name", JStr "boom")]
           "boom"
           {| tool_name := "boom"; tool_description := "always fails";
              inputSchema := JObj [] |}
           Fixture.boom (OtherException "disk on fire"));
    [reflexivity | discriminate | reflexivity | reflexivity | reflexivity
    | reflexivity | reflexivity].
Defined.

(** C10, as amended.  On a tools/call request with a non-null id the
    parameters, the "params" member or an empty dict without one, and in
    them the name, the "name" member or [None] without one, decide.  A
    hashable name that is no registered tool gets an error reply with code
    -32602, not -32601, whose message is "Tool not found: " followed by
    [str(name)].  An unhashable name, a list or an object, makes the
    membership test of line 152 raise [TypeError], and parameters that are
    no object make line 149 raise [AttributeError]; neither is a
    [ValueError], and the reply has code -32603.  In all three cases no
    tool handler is invoked. *)
Theorem C10_unknown_tool_invalid_params s kv request_id :
  Py.assoc "id" kv = Some request_id →
  request_id ≠ JNull →
  Py.assoc "method" kv = Some (JStr "tools/call") →
  let params := default (JObj []) (Py.assoc "params" kv) in
  let internal_error e :=
    JObj [("jsonrpc", JStr "2.0");
          ("id", request_id);
          ("error",
           JObj [("code", JInt (-32603));
                 ("message", JStr "Internal server error");
                 ("data", JObj [("details", JStr (Py.exn_str e))])])] in
  (∀ members k,
     params = JObj members →
     Py.hash (default JNull (Py.assoc "name" members)) = Ok k →
     Py.find k (tools s) = None →
     handle_request s (JObj kv) =
       (call (MethodHandler "tools/call") s,
        Ok (Some (JObj [("jsonrpc", JStr "2.0");
                        ("id", request_id);
                        ("error",
                         JObj [("code", JInt (-32602));
                               ("message",
                                JStr ("Tool not found: " +:+ Py.str k))])])))) ∧
  (∀ members e,
     params = JObj members →
     Py.hash (default JNull (Py.assoc "name" members)) = Raise e →
     handle_request s (JObj kv) =
       (call (MethodHandler "tools/call") s, Ok (Some (internal_error e)))) ∧
  ((∀ members, params ≠ JObj members) →
   handle_request s (JObj kv) =
     (call (MethodHandler "tools/call") s,
      Ok (Some (internal_error (Py.no_attribute params "get"))))).
Proof.
  intros Hid Hnull Hmethod params internal_error.
  rewrite (handle_request_unfold _ _ _ _ Hid Hmethod) by discriminate.
  rewrite methods_tools_call, (is_None_false _ Hnull). fold params.
  unfold _handle_tools_call. split; [|split].
  - intros members k -> Hhash Htool. unfold Py.get.
    cbn [mbind outcome_bind]. rewrite Hhash.
    cbn [mbind outcome_bind mret outcome_ret tools call]. by rewrite Htool.
  - intros members e -> Hhash. unfold Py.get.
    cbn [mbind outcome_bind]. rewrite Hhash. cbn [mbind outcome_bind].
    assert (Hclass : is_ValueError e = false).
    { destruct (default JNull _); try discriminate; cbn in Hhash; by simplify_eq. }
    by rewrite Hclass.
  - intros Hobject. destruct params as [| | | | |members]; try done.
    by destruct (Hobject members).
Qed.

Lemma C10_unknown_tool_invalid_params_witness :
  let request :=
    Fixture.request 6 "tools/call" (JObj [("name", JStr "non_existent_tool")]) in
  let params := JObj [("name", JStr "non_existent_tool")] in
  let internal_error e :=
    JObj [("jsonrpc", JStr "2.0");
          ("id", JInt 6);
          ("error",
           JObj [("code", JInt (-32603));
                 ("message", JStr "Internal server error");
                 ("data", JObj [("details", JStr (Py.exn_str e))])])] in
  (∀ members k,
     params = JObj members →
     Py.hash (default JNull (Py.assoc "name" members)) = Ok k →
     Py.find k (tools Fixture.server) = None →
     handle_request Fixture.server request =
       (call (MethodHandler "tools/call") Fixture.server,
        Ok (Some (JObj [("jsonrpc", JStr "2.0");
                        ("id", JInt 6);
                        ("error",
                         JObj [("code", JInt (-32602));
                               ("message",
                                JStr ("Tool not found: " +:+ Py.str k))])])))) ∧
  (∀ members e,
     params = JObj members →
     Py.hash (default JNull (Py.assoc "name" members)) = Raise e →
     handle_request Fixture.server request =
       (call (MethodHandler "tools/call") Fixture.server,
        Ok (Some (internal_error e)))) ∧
  ((∀ members, params ≠ JObj members) →
   handle_request Fixture.server request =
     (call (MethodHandler "tools/call") Fixture.server,
      Ok (Some (internal_error (Py.no_attribute params "get"))))).
Proof.
  apply (C10_unknown_tool_invalid_params Fixture.server
           [("jsonrpc", JStr "2.0"); ("id", JInt 6); ("method", JStr "tools/call");
            ("params", JObj [("name", JStr "non_existent_tool")])]
           (JInt 6)); [reflexivity | discriminate | reflexivity].
Defined.

(** C10 as the claim states it fails: a name that is a list is not a
    registered tool, and the request gets code -32603. *)
Lemma C10_counterexample :
  ¬ ∀ s kv request_id params name,
      Py.assoc "id" kv = Some request_id →
      request_id ≠ JNull →
      Py.assoc "method" kv = Some (JStr "tools/call") →
      Py.assoc "params" kv = Some (JObj params) →
      Py.assoc "name" params = Some name →
      (∀ k, Py.hash name = Ok k → Py.find k (tools s) = None) →
      ∃ s' reply,
        handle_request s (JObj kv) = (s', Ok (Some reply)) ∧
        error_code reply = Some (JInt (-32602)).
Proof.
  intros claim.
  destruct (claim Fixture.server
              [("jsonrpc", JStr "2.0"); ("id", JInt 6);
               ("method", JStr "tools/call");
               ("params", JObj [("name", JList [JStr "echo"])])]
              (JInt 6) [("name", JList [JStr "echo"])] (JList [JStr "echo"]))
    as (s' & reply & Hreply & Hcode);
    [reflexivity | discriminate | reflexivity | reflexivity | reflexivity
    | discriminate |].
  injection Hreply as <- <-. discriminate Hcode.
Qed.

Example unknown_tools :
  (handle_request Fixture.server
     (Fixture.request 6 "tools/call"
        (JObj [("name", JStr "non_existent_tool")]))).2 =
    Ok (Some (JObj [("jsonrpc", JStr "2.0");
                    ("id", JInt 6);
                    ("error",
                     JObj [("code", JInt (-32602));
                           ("message",
                            JStr "Tool not found: non_existent_tool")])])) ∧
  (handle_request Fixture.server
     (Fixture.request 6 "tools/call" (JObj [("name", JList [JStr "echo"])]))).2 =
    Ok (Some (JObj [("jsonrpc", JStr "2.0");
                    ("id", JInt 6);
                    ("error",
                     JObj [("code", JInt (-32603));
                           ("message", JStr "Internal server error");
                           ("data",
                            JObj [("details",
                                   JStr "unhashable type: 'list'")])])])) ∧
  (handle_request Fixture.server
     (Fixture.request 6 "tools/call" (JList [JStr "echo"]))).2 =
    Ok (Some (JObj [("jsonrpc", JStr "2.0");
                    ("id", JInt 6);
                    ("error",
                     JObj [("code", JInt (-32603));
                           ("message", JStr "Internal server error");
                           ("data",
                            JObj [("details",
                                   JStr "'list' object has no attribute 'get'")])])])).
Proof. repeat split; reflexivity. Qed.

Lemma run_app fault s pre post :
  run fault s (pre ++ post) =
    match run fault s pre with
    | (s1, None) => run fault s1 post
    | (s1, Some e) => (s1, Some e)
    end.
Proof.
  revert s. induction pre as [|line pre IH]; intros s; [done|].
  cbn [app run]. destruct (run_line fault s line) as [s1 [e|]]; [done|apply IH].
Qed.

Lemma methods_stdout_blind method handler :
  Py.assoc method methods = Some handler → stdout_blind handler.
Proof.
  intros Hreg s params o. unfold methods in Hreg. cbn in Hreg.
  repeat case_decide; simplify_eq.
  - unfold _handle_initialize. by destruct (_ ≫= _).
  - done.
  - unfold _handle_tools_call. destruct (_ ≫= _) as [[k arguments]|]; [|done].
    cbn. destruct (Py.find k (tools s)) as [[tool handler]|]; [|done].
    by destruct (handler arguments).
  - done.
  - unfold _handle_resources_read. destruct (_ ≫= _) as [[uri k]|]; [|done].
    cbn. destruct (Py.find k (resources s)) as [[resource [content|e]]|]; done.
  - done.
  - unfold _handle_prompts_get. destruct (_ ≫= _) as [[k arguments]|]; [|done].
    cbn. destruct (Py.find k (prompts s)) as [[prompt handler]|]; [|done].
    by destruct (handler arguments).
Qed.

Lemma handle_request_stdout_blind s request o :
  handle_request (set_stdout o s) request =
    (set_stdout o (handle_request s request).1, (handle_request s request).2).
Proof.
  unfold handle_request.
  destruct (_ ≫= _) as [[[request_id method] params]|]; [|done].
  destruct (eq_str _ _); [done|].
  destruct (Py.hash method) as [k|]; [|done].
  destruct (Py.find k methods) as [handler|] eqn:Hreg.
  - assert (Hblind : stdout_blind handler).
    { destruct k; try discriminate. by eapply methods_stdout_blind. }
    change (call ?f (set_stdout o s)) with (set_stdout o (call f s)).
    rewrite Hblind.
    destruct (handler _ params) as [s' [result|e]]; cbn.
    + by destruct (is_None request_id).
    + by destruct (is_ValueError e), (is_None request_id).
  - by destruct (is_None request_id).
Qed.

Lemma set_stdout_id s : set_stdout (stdout s) s = s.
Proof. by destruct s. Qed.

Lemma handle_request_keeps_stdout s request :
  stdout (handle_request s request).1 = stdout s.
Proof.
  pose proof (handle_request_stdout_blind s request (stdout s)) as H.
  rewrite set_stdout_id in H.
  destruct (handle_request s request) as [s' r]. cbn in *.
  by injection H as ->.
Qed.

End ServerFacts.

(** * Properties of the client *)

Section ClientFacts.

Import Client.

(** [_handle_message] touches nothing but the queues. *)
Lemma handle_message_fields c message :
  let c' := fst (_handle_message c message) in
  process c' = process c ∧ next_id c' = next_id c ∧
  pending_requests c' = pending_requests c ∧ running c' = running c ∧
  server_info c' = server_info c ∧
  server_capabilities c' = server_capabilities c.
Proof.
  unfold _handle_message.
  destruct (_ ≫= _) as [[queue|]|]; cbn; done.
Qed.

(** A message whose id is the integer of a pending entry is put in that
    entry's queue. *)
Lemma handle_message_pending c kv request_id queue :
  Py.assoc "id" kv = Some (JInt request_id) →
  pending_requests c !! request_id = Some queue →
  _handle_message c (JObj kv) = (put queue (JObj kv) c, Ok ()).
Proof.
  intros Hid Hpending. unfold _handle_message. cbn.
  rewrite Hid. cbn. by rewrite Hpending.
Qed.

(** A message whose id is an integer without a pending entry is dropped. *)
Lemma handle_message_dropped c kv request_id :
  Py.assoc "id" kv = Some (JInt request_id) →
  pending_requests c !! request_id = None →
  _handle_message c (JObj kv) = (c, Ok ()).
Proof.
  intros Hid Hpending. unfold _handle_message. cbn.
  rewrite Hid. cbn. rewrite Hpending. cbn.
  by rewrite andb_false_r.
Qed.



Example waiting_thread :
  threads Fixture.waiting = [Waiting 1 0] ∧
  (process (self Fixture.waiting) ≫= λ p, Some (stdin p)) =
    Some [JObj [("jsonrpc", JStr "2.0"); ("id", JInt 1);
                ("method", JStr "tools/list")]].
Proof. split; reflexivity. Qed.



Lemma put_lookup queue message c items :
  queues c !! queue = Some items →
  queues (put queue message c) !! queue = Some (items ++ [message]).
Proof. intros H. cbn. by rewrite list_lookup_alter_eq, H. Qed.

(** [get] on a queue that holds a message, then the [finally] clause and
    the lines after it. *)
Lemma take_response c request_id queue response items :
  queues c !! queue = Some (response :: items) →
  ∃ c' c'',
    step c (Waiting request_id queue) = Some (c', Cleanup request_id response) ∧
    queues c' !! queue = Some items ∧
    pending_requests c' = pending_requests c ∧
    step c' (Cleanup request_id response) = Some (c'', check_response response) ∧
    pending_requests c'' = delete request_id (pending_requests c) ∧
    queues c'' = queues c'.
Proof.
  intros Hqueue.
  assert (Hlt : queue < length (queues c)) by by eapply lookup_lt_Some.
  set (c' := set_queues (<[queue:=items]> (queues c)) c).
  destruct (pending_requests c !! request_id) eqn:Hentry.
  - exists c', (set_pending_requests (delete request_id (pending_requests c)) c').
    cbn. rewrite Hqueue. cbn. rewrite Hentry.
    repeat split. by apply list_lookup_insert_eq.
  - exists c', c'.
    cbn. rewrite Hqueue. cbn. rewrite Hentry.
    repeat split; [by apply list_lookup_insert_eq|].
    symmetry. by apply delete_id.
Qed.

(** C7, as amended.  Slot [request_id] is pending with an empty queue and
    two replies [x] then [y] with that identifier arrive.  The caller
    receives [x] in either order of events and its entry is removed.  The
    second reply is a no-op only when it arrives after the caller has
    removed the entry; when it arrives earlier it is put in the queue
    behind [x], where nothing reads it. *)
Theorem C7_first_reply_wins c request_id queue x y :
  pending_requests c !! request_id = Some queue →
  queues c !! queue = Some [] →
  Py.assoc "id" x = Some (JInt request_id) →
  Py.assoc "id" y = Some (JInt request_id) →
  let c1 := fst (_handle_message c (JObj x)) in
  let c2 := fst (_handle_message c1 (JObj y)) in
  (queues c2 !! queue = Some [JObj x; JObj y] ∧
   ∃ c3 c4,
     step c2 (Waiting request_id queue) = Some (c3, Cleanup request_id (JObj x)) ∧
     step c3 (Cleanup request_id (JObj x)) = Some (c4, check_response (JObj x)) ∧
     pending_requests c4 !! request_id = None) ∧
  (∃ c3 c4,
     step c1 (Waiting request_id queue) = Some (c3, Cleanup request_id (JObj x)) ∧
     step c3 (Cleanup request_id (JObj x)) = Some (c4, check_response (JObj x)) ∧
     pending_requests c4 !! request_id = None ∧
     _handle_message c4 (JObj y) = (c4, Ok ())).
Proof.
  intros Hentry Hempty Hx Hy c1 c2.
  assert (Hc1 : c1 = put queue (JObj x) c).
  { unfold c1. by rewrite (handle_message_pending _ _ _ _ Hx Hentry). }
  assert (Hq1 : queues c1 !! queue = Some [JObj x]).
  { rewrite Hc1. by apply (put_lookup _ _ _ []). }
  assert (Hc2 : c2 = put queue (JObj y) c1).
  { unfold c2. rewrite (handle_message_pending _ _ _ queue Hy); [done|].
    by rewrite Hc1. }
  assert (Hq2 : queues c2 !! queue = Some [JObj x; JObj y]).
  { rewrite Hc2. by apply (put_lookup _ _ _ [JObj x]). }
  split; [split; [done|]|].
  - destruct (take_response c2 request_id _ _ _ Hq2)
      as (c3 & c4 & Hget & _ & _ & Hclean & Hgone & _).
    exists c3, c4. repeat split; try done.
    rewrite Hgone. apply lookup_delete_eq.
  - destruct (take_response c1 request_id _ _ _ Hq1)
      as (c3 & c4 & Hget & _ & _ & Hclean & Hgone & _).
    exists c3, c4. repeat split; try done.
    + rewrite Hgone. apply lookup_delete_eq.
    + apply (handle_message_dropped _ _ _ Hy).
      rewrite Hgone. apply lookup_delete_eq.
Qed.

Lemma C7_first_reply_wins_witness :
  let c := self Fixture.waiting in
  let x := [("jsonrpc", JStr "2.0"); ("id", JInt 1); ("result", JStr "first")] in
  let y := [("jsonrpc", JStr "2.0"); ("id", JInt 1); ("result", JStr "second")] in
  let c1 := fst (_handle_message c (JObj x)) in
  let c2 := fst (_handle_message c1 (JObj y)) in
  (queues c2 !! 0 = Some [JObj x; JObj y] ∧
   ∃ c3 c4,
     step c2 (Waiting 1 0) = Some (c3, Cleanup 1 (JObj x)) ∧
     step c3 (Cleanup 1 (JObj x)) = Some (c4, Returned (JStr "first")) ∧
     pending_requests c4 !! 1%Z = None) ∧
  (∃ c3 c4,
     step c1 (Waiting 1 0) = Some (c3, Cleanup 1 (JObj x)) ∧
     step c3 (Cleanup 1 (JObj x)) = Some (c4, Returned (JStr "first")) ∧
     pending_requests c4 !! 1%Z = None ∧
     _handle_message c4 (JObj y) = (c4, Ok ())).
Proof.
  apply (C7_first_reply_wins (self Fixture.waiting) 1 0);
    [vm_compute; reflexivity | reflexivity | reflexivity | reflexivity].
Defined.

(** C7 as the claim states it fails: the second resolution is not a no-op
    while the entry is still registered. *)
Lemma C7_counterexample :
  ¬ ∀ c request_id queue x y,
      pending_requests c !! request_id = Some queue →
      queues c !! queue = Some [] →
      Py.assoc "id" x = Some (JInt request_id) →
      Py.assoc "id" y = Some (JInt request_id) →
      let c1 := fst (_handle_message c (JObj x)) in
      fst (_handle_message c1 (JObj y)) = c1.
Proof.
  intros claim.
  specialize (claim (self Fixture.waiting) 1%Z 0
                [("jsonrpc", JStr "2.0"); ("id", JInt 1); ("result", JStr "first")]
                [("jsonrpc", JStr "2.0"); ("id", JInt 1); ("result", JStr "second")]).
  cbv zeta in claim.
  apply (f_equal queues) in claim;
    [|vm_compute; reflexivity | reflexivity | reflexivity | reflexivity].
  vm_compute in claim. discriminate claim.
Qed.

Lemma stop_keeps_slots c :
  pending_requests (stop c) = pending_requests c ∧ queues (stop c) = queues c.
Proof. unfold stop. cbn. by destruct (process c). Qed.

(** A waiting thread keeps waiting, and the table and the queues stay as
    they are, when [stop] runs or the stream ends. *)
Lemma closing_keeps_slots w t f e :
  e = Stop ∨ e = Eof →
  threads w !! t = Some f →
  threads (exec w e) !! t = Some f ∧
  pending_requests (self (exec w e)) = pending_requests (self w) ∧
  queues (self (exec w e)) = queues (self w).
Proof.
  intros [-> | ->] Hthread; cbn; [|done].
  by destruct (stop_keeps_slots (self w)).
Qed.

(** C3, as amended.  When [stop] runs and when the inbound stream ends,
    [pending_requests] and every queue stay as they were: the reader loop
    ends without touching a slot.  A call in flight stays blocked in
    [get]; it ends when its own timeout runs out, with [TimeoutError]. *)
Theorem C3_stream_end_leaves_call_waiting w t request_id queue schedule :
  threads w !! t = Some (Waiting request_id queue) →
  pending_requests (self w) !! request_id = Some queue →
  queues (self w) !! queue = Some [] →
  Forall (λ e, e = Stop ∨ e = Eof) schedule →
  let w' := execs w schedule in
  _read_loop (self w) [] = self w ∧
  pending_requests (self w') = pending_requests (self w) ∧
  queues (self w') = queues (self w) ∧
  threads w' !! t = Some (Waiting request_id queue) ∧
  step (self w') (Waiting request_id queue) = None ∧
  threads (execs w' [Elapse t; Run t]) !! t = Some (Raised TimeoutError).
Proof.
  intros Hthread Hentry Hempty Hschedule w'.
  assert (Hkeep : pending_requests (self w') = pending_requests (self w) ∧
                  queues (self w') = queues (self w) ∧
                  threads w' !! t = Some (Waiting request_id queue)).
  { clear Hentry Hempty. subst w'. unfold execs. revert w Hthread.
    induction Hschedule as [|e schedule He _ IH]; intros w Hthread; [done|].
    cbn [foldl]. destruct (closing_keeps_slots w t _ e He Hthread) as (Ht & Hp & Hq).
    destruct (IH _ Ht) as (IHp & IHq & IHt).
    by rewrite IHp, IHq, Hp, Hq. }
  destruct Hkeep as (Hp & Hq & Ht).
  split; [unfold _read_loop; by destruct (process (self w))|].
  repeat split; try done.
  - cbn. by rewrite Hq, Hempty.
  - cbn. rewrite Ht. cbn. rewrite Hq, Hempty. cbn.
    rewrite list_lookup_insert_eq by by eapply lookup_lt_Some.
    cbn. rewrite Hp, Hentry. cbn.
    apply list_lookup_insert_eq. rewrite length_insert. by eapply lookup_lt_Some.
Qed.

Lemma C3_stream_end_leaves_call_waiting_witness :
  let w := Fixture.waiting in
  let w' := execs w [Stop; Eof] in
  _read_loop (self w) [] = self w ∧
  pending_requests (self w') = pending_requests (self w) ∧
  queues (self w') = queues (self w) ∧
  threads w' !! 0 = Some (Waiting 1 0) ∧
  step (self w') (Waiting 1 0) = None ∧
  threads (execs w' [Elapse 0; Run 0]) !! 0 = Some (Raised TimeoutError).
Proof.
  apply (C3_stream_end_leaves_call_waiting Fixture.waiting 0 1 0 [Stop; Eof]);
    [reflexivity | vm_compute; reflexivity | reflexivity
    | constructor; [by left | constructor; [by right | constructor]]].
Defined.

(** C3 as the claim states it fails: a call is in flight, [stop] runs and
    the stream ends, and the call cannot complete: it is still blocked in
    [get] on an empty queue. *)
Lemma C3_counterexample :
  ¬ ∀ w t request_id queue,
      threads w !! t = Some (Waiting request_id queue) →
      pending_requests (self w) !! request_id = Some queue →
      is_Some (step (self (execs w [Stop; Eof])) (Waiting request_id queue)).
Proof.
  intros claim.
  destruct (claim Fixture.waiting 0 1%Z 0) as [next Hnext];
    [reflexivity | vm_compute; reflexivity |].
  discriminate Hnext.
Qed.

(** A thread that runs from its call to its wait with no other thread in
    between. *)
Lemma send_alone c p method params rest :
  process c = Some p →
  alive p = true →
  let w := execs (calling c (Called method params :: rest))
             (replicate 6 (Run 0)) in
  threads w = Waiting (next_id c) (length (queues c)) :: rest ∧
  process (self w) =
    Some {| stdin := stdin p ++ [request_of (next_id c) method params];
            alive := true |} ∧
  next_id (self w) = (next_id c + 1)%Z ∧
  pending_requests (self w) =
    <[next_id c := length (queues c)]> (pending_requests c) ∧
  queues (self w) = queues c ++ [[]] ∧
  running (self w) = running c ∧ server_info (self w) = server_info c ∧
  reader w = true.
Proof.
  intros Hprocess Halive. cbn. rewrite Hprocess. cbn.
  unfold write. cbn. rewrite Hprocess, Halive. cbn.
  by destruct params.
Qed.

(** C4, as amended.  [_send_request] tests one thing before it writes:
    that the child has been spawned.  Without a child the call raises
    [RuntimeError("Client not connected")] and nothing changes.  With a
    live child the request is written, whatever [server_info] holds, that
    is, whether or not the handshake has taken place. *)
Theorem C4_only_connection_checked c method params :
  (process c = None →
   step c (Called method params) =
     Some (c, Raised (RuntimeError "Client not connected"))) ∧
  (∀ p,
     process c = Some p →
     alive p = true →
     let w := execs (calling c [Called method params]) (replicate 6 (Run 0)) in
     threads w = [Waiting (next_id c) (length (queues c))] ∧
     process (self w) =
       Some {| stdin := stdin p ++ [request_of (next_id c) method params];
               alive := true |}).
Proof.
  split.
  - intros Hprocess. cbn. by rewrite Hprocess.
  - intros p Hprocess Halive.
    destruct (send_alone c p method params [] Hprocess Halive) as (? & ? & _).
    done.
Qed.

(** C4 as the claim states it fails: on a client whose child has just
    been spawned, before any [initialize] request has been written, a
    call of [tools/list] is written to the child's stdin. *)
Lemma C4_counterexample :
  ¬ ∀ c method params n,
      server_info c = None →
      wire (self (execs (calling c [Called method params])
                    (replicate n (Run 0)))) = wire c.
Proof.
  intros claim.
  specialize (claim connected "tools/list" None 6%nat eq_refl).
  discriminate claim.
Qed.

End ClientFacts.

(** * Two calls at once *)

Section ConcurrentCalls.

Import Client TwoCalls.

Lemma check_response_over x : is_over (check_response x) = true.
Proof.
  unfold check_response.
  destruct (Py.contains "error" x) as [[]|]; [|by destruct (Py.get _ _ _)|done].
  by destruct (_ ≫= _) as [[]|].
Qed.

Lemma frame_ok_over c id x : frame_ok c id x (check_response x).
Proof.
  pose proof (check_response_over x). unfold frame_ok.
  by destruct (check_response x).
Qed.

(** [frame_ok] looks at [next_id] only before line 184 has run, and at the
    table only under [id]. *)
Lemma frame_ok_ext c c' id x f :
  allocated f = true ∨ next_id c' = next_id c →
  pending_requests c' !! id = pending_requests c !! id →
  frame_ok c id x f → frame_ok c' id x f.
Proof.
  intros Hnext Hentry.
  destruct f; cbn; try done; try (by destruct Hnext as [ | -> ]);
    by rewrite Hentry.
Qed.

Lemma slot_ok_ext c c' id x other :
  pending_requests c' = pending_requests c →
  queues c' = queues c →
  slot_ok c id x other → slot_ok c' id x other.
Proof. unfold slot_ok. by intros -> ->. Qed.

(** Closes the cases of [step_ok] in which neither the table nor a queue
    changes. *)
Local Ltac slots_untouched :=
  split; [eauto|]; do 3 (split; [done|]); split; done.

(** A step of the thread bound to [id] keeps what holds of it and of the
    two slots, and leaves the other thread's entry alone. *)
Lemma step_ok c f c' f' id x other y p :
  id ≠ other →
  process c = Some p →
  alive p = true →
  frame_ok c id x f →
  slot_ok c id x other →
  slot_ok c other y id →
  step c f = Some (c', f') →
  (∃ p', process c' = Some p' ∧ alive p' = true) ∧
  frame_ok c' id x f' ∧
  slot_ok c' id x other ∧
  slot_ok c' other y id ∧
  (allocated f = true → allocated f' = true ∧ next_id c' = next_id c) ∧
  pending_requests c' !! other = pending_requests c !! other.
Proof.
  intros Hne Hprocess Halive Hframe Hslot Hother Hstep.
  destruct f; cbn in Hstep, Hframe.
  - (* line 180 *)
    rewrite Hprocess in Hstep. simplify_eq. cbn. slots_untouched.
  - (* line 183 *)
    simplify_eq. cbn. slots_untouched.
  - (* line 184, the load *)
    simplify_eq. cbn. slots_untouched.
  - (* line 184, the store *)
    simplify_eq. cbn. slots_untouched.
  - (* lines 186 to 197 *)
    simplify_eq. cbn.
    split; [eauto|]. split; [by rewrite lookup_insert_eq|].
    split; [|split; [|split; [done|by rewrite lookup_insert_ne]]].
    + intros queue. cbn. rewrite lookup_insert_eq, lookup_insert_ne by done.
      intros [= <-]. split.
      * exists []. split; [|done].
        rewrite lookup_app_r, Nat.sub_diag by done. done.
      * intros Hclash. destruct (Hother _ Hclash) as [(items & Hq & _) _].
        apply lookup_lt_Some in Hq. lia.
    + intros queue. cbn. rewrite lookup_insert_eq, lookup_insert_ne by done.
      intros Hentry. destruct (Hother _ Hentry) as [(items & Hq & Hitems) _].
      split.
      * exists items. split; [|done]. rewrite lookup_app_l; [done|].
        by eapply lookup_lt_Some.
      * intros [= <-]. apply lookup_lt_Some in Hq. lia.
  - (* lines 200 to 207 *)
    destruct Hframe as [-> Hentry].
    unfold write in Hstep. rewrite Hprocess, Halive in Hstep. simplify_eq.
    cbn. slots_untouched.
  - (* line 211 *)
    destruct Hframe as [-> Hentry].
    destruct (Hslot _ Hentry) as [(items & Hq & Hitems) Hdistinct].
    rewrite Hq in Hstep. destruct items as [|response items]; simplify_eq.
    apply Forall_cons in Hitems as [<- Hitems]. cbn.
    split; [eauto|]. split; [done|].
    split; [|split; [|done]].
    + intros queue. cbn. intros Hentry'. simplify_eq. split; [|done].
      exists items. split; [|done].
      apply list_lookup_insert_eq. by eapply lookup_lt_Some.
    + intros queue. cbn. intros Hentry'.
      destruct (Hother _ Hentry') as [(items' & Hq' & Hitems') Hdistinct'].
      split; [|done]. exists items'. split; [|done].
      rewrite list_lookup_insert_ne; [done|]. intros ->. by apply Hdistinct'.
  - (* line 213 *)
    done.
  - (* lines 216 to 227 *)
    destruct Hframe as [-> ->].
    assert (Hgone : ∀ c'',
              c'' = match pending_requests c !! id with
                    | Some _ => set_pending_requests
                                  (delete id (pending_requests c)) c
                    | None => c
                    end →
              process c'' = process c ∧ queues c'' = queues c ∧
              next_id c'' = next_id c ∧
              pending_requests c'' !! id = None ∧
              pending_requests c'' !! other = pending_requests c !! other).
    { intros c'' ->. destruct (pending_requests c !! id) eqn:Hentry; cbn.
      - by rewrite lookup_delete_eq, lookup_delete_ne.
      - done. }
    simplify_eq.
    destruct (Hgone _ eq_refl) as (Hp & Hq & Hn & Hid & Ho).
    split; [rewrite Hp; eauto|]. split; [apply frame_ok_over|].
    split; [|split; [|split; [|done]]].
    + intros queue. by rewrite Hid.
    + intros queue. rewrite Ho, Hq, Hid. intros Hentry.
      destruct (Hother _ Hentry) as [? _]. done.
    + intros _. split; [|done].
      pose proof (check_response_over x). by destruct (check_response x).
  - done.
  - done.
Qed.

(** The reader thread handles the reply for [id]. *)
Lemma receive_ok c id kv other y :
  Py.assoc "id" kv = Some (JInt id) →
  slot_ok c id (JObj kv) other →
  slot_ok c other y id →
  let c' := (_handle_message c (JObj kv)).1 in
  slot_ok c' id (JObj kv) other ∧
  slot_ok c' other y id ∧
  pending_requests c' = pending_requests c ∧
  next_id c' = next_id c ∧
  process c' = process c.
Proof.
  intros Hid Hslot Hother.
  destruct (pending_requests c !! id) as [queue|] eqn:Hentry.
  - rewrite (handle_message_pending _ _ _ _ Hid Hentry). cbn.
    destruct (Hslot _ Hentry) as [(items & Hq & Hitems) Hdistinct].
    split; [|split; [|done]].
    + intros queue' Hentry'. cbn in Hentry'. simplify_eq. split; [|done].
      exists (items ++ [JObj kv]). cbn. rewrite list_lookup_alter_eq, Hq.
      split; [done|]. apply Forall_app. by repeat constructor.
    + intros queue' Hentry'. cbn in Hentry'.
      destruct (Hother _ Hentry') as [(items' & Hq' & Hitems') Hdistinct'].
      split; [|done]. exists items'. split; [|done]. cbn.
      rewrite list_lookup_alter_ne; [done|]. by intros ->.
  - by rewrite (handle_message_dropped _ _ _ Hid Hentry).
Qed.

Section Invariant.

Variables (id1 id2 : Z) (kv1 kv2 : list (string * json)).
Hypothesis distinct : id1 ≠ id2.
Hypothesis reply1 : Py.assoc "id" kv1 = Some (JInt id1).
Hypothesis reply2 : Py.assoc "id" kv2 = Some (JInt id2).

Lemma inv_exec w e :
  allowed (JObj kv1) (JObj kv2) e →
  inv id1 id2 (JObj kv1) (JObj kv2) w →
  inv id1 id2 (JObj kv1) (JObj kv2) (exec w e).
Proof.
  intros Hallowed (f1 & f2 & p & Hthreads & Hprocess & Halive & Halloc
                   & Hf1 & Hf2 & Hslot1 & Hslot2).
  destruct e as [t| |[| | |x| ]| |]; try done; cbn [exec].
  - (* a thread steps *)
    rewrite Hthreads.
    destruct t as [|[|t]]; cbn; [| |by exists f1, f2, p].
    + destruct (step (self w) f1) as [[c' f']|] eqn:Hstep; cbn;
        [|by exists f1, f2, p].
      destruct (step_ok _ _ _ _ _ _ _ _ _ distinct Hprocess Halive
                  Hf1 Hslot1 Hslot2 Hstep)
        as ((p' & Hprocess' & Halive') & Hf1' & Hslot1' & Hslot2' & Hnext & Hentry).
      destruct (Hnext Halloc) as [Halloc' Hnext'].
      exists f', f2, p'. cbn. rewrite Hthreads.
      do 5 (split; [done|]). split; [|done].
      eapply frame_ok_ext; [by right|done|done].
    + destruct (step (self w) f2) as [[c' f']|] eqn:Hstep; cbn;
        [|by exists f1, f2, p].
      destruct (step_ok _ _ _ _ _ _ _ _ _ (not_eq_sym distinct) Hprocess Halive
                  Hf2 Hslot2 Hslot1 Hstep)
        as ((p' & Hprocess' & Halive') & Hf2' & Hslot2' & Hslot1' & _ & Hentry).
      exists f1, f', p'. cbn. rewrite Hthreads.
      do 4 (split; [done|]). split; [|done].
      eapply frame_ok_ext; [by left|done|done].
  - (* the reader thread handles a reply *)
    destruct (reader w); [|by exists f1, f2, p].
    destruct (running (self w)); [|by exists f1, f2, p].
    unfold inv. cbn [self threads read_line].
    destruct Hallowed as [-> | ->].
    + destruct (receive_ok _ _ _ _ _ reply1 Hslot1 Hslot2)
        as (Hslot1' & Hslot2' & Hpending & Hnext & Hprocess').
      exists f1, f2, p. rewrite Hprocess'. do 4 (split; [done|]).
      split; [|split; [|done]].
      * eapply frame_ok_ext; [by right|by rewrite Hpending|done].
      * eapply frame_ok_ext; [by right|by rewrite Hpending|done].
    + destruct (receive_ok _ _ _ _ _ reply2 Hslot2 Hslot1)
        as (Hslot2' & Hslot1' & Hpending & Hnext & Hprocess').
      exists f1, f2, p. rewrite Hprocess'. do 4 (split; [done|]).
      split; [|split; [|done]].
      * eapply frame_ok_ext; [by right|by rewrite Hpending|done].
      * eapply frame_ok_ext; [by right|by rewrite Hpending|done].
Qed.

Lemma inv_execs w schedule :
  Forall (allowed (JObj kv1) (JObj kv2)) schedule →
  inv id1 id2 (JObj kv1) (JObj kv2) w →
  inv id1 id2 (JObj kv1) (JObj kv2) (execs w schedule).
Proof.
  intros Hschedule. revert w. unfold execs.
  induction Hschedule as [|e schedule He _ IH]; intros w Hinv; [done|].
  cbn [foldl]. by apply IH, inv_exec.
Qed.

(** What the invariant says of the two threads. *)
Lemma inv_threads w :
  inv id1 id2 (JObj kv1) (JObj kv2) w →
  ∃ f1 f2,
    threads w = [f1; f2] ∧
    (∀ id, frame_id f1 = Some id → id = id1) ∧
    (∀ id, frame_id f2 = Some id → id = id2) ∧
    (∀ q1 q2, queue_of f1 = Some q1 → queue_of f2 = Some q2 → q1 ≠ q2) ∧
    (is_over f1 = true → f1 = check_response (JObj kv1)) ∧
    (is_over f2 = true → f2 = check_response (JObj kv2)).
Proof.
  intros (f1 & f2 & p & Hthreads & _ & _ & Halloc & Hf1 & Hf2 & Hslot1 & _).
  exists f1, f2. split; [done|]. repeat split.
  - intros id Hid. destruct f1; cbn in *; simplify_eq; try done; by destruct Hf1.
  - intros id Hid. destruct f2; cbn in *; simplify_eq; try done; by destruct Hf2.
  - intros q1 q2 Hq1 Hq2 ->.
    destruct f1; cbn in *; simplify_eq; destruct Hf1 as [_ Hentry1];
      destruct f2; cbn in *; simplify_eq; destruct Hf2 as [_ Hentry2];
      by destruct (Hslot1 _ Hentry1).
  - by destruct f1.
  - by destruct f2.
Qed.

End Invariant.

Lemma execs_cons w e schedule :
  execs w (e :: schedule) = execs (exec w e) schedule.
Proof. reflexivity. Qed.

Lemma execs_app w schedule1 schedule2 :
  execs w (schedule1 ++ schedule2) = execs (execs w schedule1) schedule2.
Proof. apply foldl_app. Qed.

Lemma exec_run w t f c' f' :
  threads w !! t = Some f →
  step (self w) f = Some (c', f') →
  exec w (Run t) =
    {| self := c'; threads := <[t:=f']> (threads w); reader := reader w |}.
Proof. intros Ht Hstep. cbn [exec]. rewrite Ht. unfold move. by rewrite Hstep. Qed.

Lemma exec_receive w kv request_id queue :
  reader w = true →
  running (self w) = true →
  Py.assoc "id" kv = Some (JInt request_id) →
  pending_requests (self w) !! request_id = Some queue →
  exec w (Receive (Decoded (JObj kv))) =
    {| self := put queue (JObj kv) (self w); threads := threads w;
       reader := true |}.
Proof.
  intros Hreader Hrunning Hid Hentry. cbn [exec read_line].
  by rewrite Hreader, Hrunning, (handle_message_pending _ _ _ _ Hid Hentry).
Qed.

(** One more step of thread [t], whose frame was stored by the step
    before. *)
Local Ltac next_step :=
  rewrite execs_cons;
  erewrite exec_run;
    [|cbn [threads]; by apply list_lookup_insert_eq|cbn [step self]; reflexivity];
  cbn [self threads reader]; rewrite list_insert_insert_eq.

(** A thread runs from its call to its wait with no other event in
    between. *)
Lemma run_to_wait w t p method params :
  threads w !! t = Some (Called method params) →
  process (self w) = Some p →
  alive p = true →
  execs w (replicate 6 (Run t)) =
    {| self := sent (self w) p method params;
       threads := <[t := Waiting (next_id (self w)) (length (queues (self w)))]>
                    (threads w);
       reader := reader w |}.
Proof.
  intros Ht Hprocess Halive.
  assert (Hlt : t < length (threads w)) by by eapply lookup_lt_Some.
  cbn [replicate].
  rewrite execs_cons.
  erewrite (exec_run w); [|done|by cbn [step]; rewrite Hprocess].
  do 4 next_step.
  rewrite execs_cons.
  erewrite exec_run;
    [|cbn [threads]; by apply list_lookup_insert_eq
     |cbn [step self]; unfold write; cbn; rewrite Hprocess, Halive; reflexivity].
  cbn [self threads reader]. rewrite list_insert_insert_eq.
  reflexivity.
Qed.

(** A thread runs lines 180 to 184 with no other event in between. *)
Lemma run_to_register w t p method params :
  threads w !! t = Some (Called method params) →
  process (self w) = Some p →
  execs w (replicate 4 (Run t)) =
    {| self := set_next_id (next_id (self w) + 1) (self w);
       threads := <[t := Registering method params (next_id (self w))]> (threads w);
       reader := reader w |}.
Proof.
  intros Ht Hprocess.
  assert (Hlt : t < length (threads w)) by by eapply lookup_lt_Some.
  cbn [replicate].
  rewrite execs_cons.
  erewrite (exec_run w); [|done|by cbn [step]; rewrite Hprocess].
  do 3 next_step.
  reflexivity.
Qed.

(** Any interleaving, once the first thread has run line 184. *)
Lemma two_calls_safe c p method1 params1 method2 params2 result1 result2
    schedule :
  process c = Some p →
  alive p = true →
  (∀ id, (next_id c ≤ id)%Z → pending_requests c !! id = None) →
  let id1 := next_id c in
  let id2 := (next_id c + 1)%Z in
  let x1 := Server._create_success_response (JInt id1) result1 in
  let x2 := Server._create_success_response (JInt id2) result2 in
  let w := calling c [Called method1 params1; Called method2 params2] in
  Forall (allowed x1 x2) schedule →
  ∃ f1 f2,
    threads (execs w (replicate 4 (Run 0) ++ schedule)) = [f1; f2] ∧
    (∀ id, frame_id f1 = Some id → id = id1) ∧
    (∀ id, frame_id f2 = Some id → id = id2) ∧
    (∀ q1 q2, queue_of f1 = Some q1 → queue_of f2 = Some q2 → q1 ≠ q2) ∧
    (is_over f1 = true → f1 = Returned result1) ∧
    (is_over f2 = true → f2 = Returned result2).
Proof.
  intros Hprocess Halive Hfresh id1 id2 x1 x2 w Hschedule.
  rewrite execs_app.
  rewrite (run_to_register w 0 p method1 params1) by done.
  assert (Hdistinct : id1 ≠ id2) by (subst id1 id2; lia).
  apply (inv_threads id1 id2
           [("jsonrpc", JStr "2.0"); ("id", JInt id1); ("result", result1)]
           [("jsonrpc", JStr "2.0"); ("id", JInt id2); ("result", result2)]
           Hdistinct eq_refl eq_refl).
  apply (inv_execs id1 id2
           [("jsonrpc", JStr "2.0"); ("id", JInt id1); ("result", result1)]
           [("jsonrpc", JStr "2.0"); ("id", JInt id2); ("result", result2)]
           Hdistinct eq_refl eq_refl); [done|].
  exists (Registering method1 params1 id1), (Called method2 params2), p.
  cbn. do 6 (split; [done|]). split.
  - intros queue. cbn. rewrite Hfresh by (subst id1; lia). done.
  - intros queue. cbn. rewrite Hfresh by (subst id2; lia). done.
Qed.

Lemma step_waiting c request_id queue response items :
  queues c !! queue = Some (response :: items) →
  step c (Waiting request_id queue) =
    Some (set_queues (<[queue:=items]> (queues c)) c, Cleanup request_id response).
Proof. intros H. cbn [step]. by rewrite H. Qed.

Lemma step_cleanup c request_id queue response :
  pending_requests c !! request_id = Some queue →
  step c (Cleanup request_id response) =
    Some (set_pending_requests (delete request_id (pending_requests c)) c,
          check_response response).
Proof. intros H. cbn [step]. by rewrite H. Qed.

(** The calls are sent one after the other; the replies arrive in the
    reverse order. *)
Lemma two_calls_in_order c p method1 params1 method2 params2 result1 result2 :
  process c = Some p →
  alive p = true →
  running c = true →
  let id1 := next_id c in
  let id2 := (next_id c + 1)%Z in
  let x1 := Server._create_success_response (JInt id1) result1 in
  let x2 := Server._create_success_response (JInt id2) result2 in
  let w := calling c [Called method1 params1; Called method2 params2] in
  threads (execs w (replicate 6 (Run 0) ++ replicate 6 (Run 1) ++
                    [Receive (Decoded x2); Receive (Decoded x1)] ++
                    [Run 0; Run 0; Run 1; Run 1])) =
    [Returned result1; Returned result2].
Proof.
  intros Hprocess Halive Hrunning id1 id2 x1 x2 w.
  assert (Hdistinct : id2 ≠ id1) by (subst id1 id2; lia).
  unfold Server._create_success_response in x1, x2. subst x1 x2.
  set (kv1 := [("jsonrpc", JStr "2.0"); ("id", JInt id1); ("result", result1)]).
  set (kv2 := [("jsonrpc", JStr "2.0"); ("id", JInt id2); ("result", result2)]).
  set (q1 := length (queues c)).
  set (q2 := length (queues c ++ [[]])).
  assert (Hq : q1 ≠ q2) by (subst q1 q2; rewrite length_app; cbn; lia).
  (* both requests are sent *)
  rewrite execs_app, (run_to_wait w 0 p method1 params1) by done.
  cbn [self threads reader w calling insert list_insert].
  set (c1 := sent c p method1 params1).
  rewrite execs_app.
  erewrite (run_to_wait _ 1 _ method2 params2); [|done|done|done].
  cbn [self threads reader insert list_insert].
  set (c2 := sent c1 _ method2 params2).
  assert (Hentry1 : pending_requests c2 !! id1 = Some q1).
  { cbn. by rewrite lookup_insert_ne, lookup_insert_eq. }
  assert (Hentry2 : pending_requests c2 !! id2 = Some q2).
  { cbn. by rewrite lookup_insert_eq. }
  assert (Hqueue1 : queues c2 !! q1 = Some []).
  { cbn. rewrite lookup_app_l by (rewrite length_app; cbn; lia).
    by apply list_lookup_middle. }
  assert (Hqueue2 : queues c2 !! q2 = Some []).
  { cbn. by apply list_lookup_middle. }
  assert (Hrunning2 : running c2 = true) by done.
  change (next_id c1) with id2. change (length (queues c1)) with q2.
  fold id1 q1. clearbody c2 q1 q2 id1 id2. clear c1.
  (* the replies arrive, the second first *)
  rewrite execs_app. rewrite (execs_cons _ (Receive _)).
  erewrite (exec_receive _ _ id2 q2); [|done|done|done|done].
  cbn [self threads reader].
  rewrite (execs_cons _ (Receive _)).
  erewrite (exec_receive _ _ id1 q1); [|done|done|done|done].
  cbn [self threads reader].
  change (execs ?w []) with w.
  set (c3 := put q1 (JObj kv1) (put q2 (JObj kv2) c2)).
  assert (Hreply1 : queues c3 !! q1 = Some [JObj kv1]).
  { subst c3. cbn [queues put set_queues].
    by rewrite list_lookup_alter_eq, list_lookup_alter_ne, Hqueue1. }
  assert (Hreply2 : queues c3 !! q2 = Some [JObj kv2]).
  { subst c3. cbn [queues put set_queues].
    by rewrite list_lookup_alter_ne, list_lookup_alter_eq, Hqueue2. }
  assert (Hpending3 : pending_requests c3 = pending_requests c2) by done.
  clearbody c3.
  (* each call takes what its queue holds *)
  rewrite execs_cons.
  erewrite exec_run; [|reflexivity|eapply step_waiting; exact Hreply1].
  cbn [self threads reader insert list_insert].
  rewrite execs_cons.
  erewrite exec_run;
    [|reflexivity|eapply step_cleanup; cbn; rewrite Hpending3; exact Hentry1].
  cbn [self threads reader insert list_insert].
  rewrite execs_cons.
  erewrite exec_run;
    [|reflexivity
     |eapply step_waiting; cbn;
      rewrite list_lookup_insert_ne by done; exact Hreply2].
  cbn [self threads reader insert list_insert].
  rewrite execs_cons.
  erewrite exec_run;
    [|reflexivity
     |eapply step_cleanup; cbn;
      rewrite lookup_delete_ne, Hpending3 by done; exact Hentry2].
  reflexivity.
Qed.

(** C1, as amended.  Two threads call on a connected client and the first
    runs lines 183 and 184 before the second reads [next_id].

    (1) When the calls are sent one after the other and the reply for the
    second identifier arrives before the reply for the first, the first
    call returns the first result and the second call the second.

    (2) Under every interleaving of the further steps of the two threads
    with the reader thread handling the two replies, in any order and any
    number of times: the two threads hold the distinct identifiers
    [next_id c] and [next_id c + 1] and distinct queues, and a call that is
    over has returned the result of the reply with its own identifier. *)
Theorem C1_each_call_its_own_reply c p method1 params1 method2 params2
    result1 result2 :
  process c = Some p →
  alive p = true →
  running c = true →
  (∀ id, (next_id c ≤ id)%Z → pending_requests c !! id = None) →
  let id1 := next_id c in
  let id2 := (next_id c + 1)%Z in
  let x1 := Server._create_success_response (JInt id1) result1 in
  let x2 := Server._create_success_response (JInt id2) result2 in
  let w := calling c [Called method1 params1; Called method2 params2] in
  threads (execs w (replicate 6 (Run 0) ++ replicate 6 (Run 1) ++
                    [Receive (Decoded x2); Receive (Decoded x1)] ++
                    [Run 0; Run 0; Run 1; Run 1])) =
    [Returned result1; Returned result2] ∧
  ∀ schedule,
    Forall (allowed x1 x2) schedule →
    ∃ f1 f2,
      threads (execs w (replicate 4 (Run 0) ++ schedule)) = [f1; f2] ∧
      (∀ id, frame_id f1 = Some id → id = id1) ∧
      (∀ id, frame_id f2 = Some id → id = id2) ∧
      (∀ q1 q2, queue_of f1 = Some q1 → queue_of f2 = Some q2 → q1 ≠ q2) ∧
      (is_over f1 = true → f1 = Returned result1) ∧
      (is_over f2 = true → f2 = Returned result2).
Proof.
  intros Hprocess Halive Hrunning Hfresh id1 id2 x1 x2 w. split.
  - by apply (two_calls_in_order c p).
  - intros schedule Hschedule. by apply (two_calls_safe c p).
Qed.

Lemma C1_each_call_its_own_reply_witness :
  let x1 := Fixture.reply 1 (JStr "tools") in
  let x2 := Fixture.reply 2 (JStr "resources") in
  let w := calling connected
             [Called "tools/list" None; Called "resources/list" None] in
  threads (execs w (replicate 6 (Run 0) ++ replicate 6 (Run 1) ++
                    [Receive (Decoded x2); Receive (Decoded x1)] ++
                    [Run 0; Run 0; Run 1; Run 1])) =
    [Returned (JStr "tools"); Returned (JStr "resources")] ∧
  ∀ schedule,
    Forall (allowed x1 x2) schedule →
    ∃ f1 f2,
      threads (execs w (replicate 4 (Run 0) ++ schedule)) = [f1; f2] ∧
      (∀ id, frame_id f1 = Some id → id = 1%Z) ∧
      (∀ id, frame_id f2 = Some id → id = 2%Z) ∧
      (∀ q1 q2, queue_of f1 = Some q1 → queue_of f2 = Some q2 → q1 ≠ q2) ∧
      (is_over f1 = true → f1 = Returned (JStr "tools")) ∧
      (is_over f2 = true → f2 = Returned (JStr "resources")).
Proof.
  apply (C1_each_call_its_own_reply connected {| stdin := []; alive := true |}
           "tools/list" None "resources/list" None
           (JStr "tools") (JStr "resources"));
    [reflexivity | reflexivity | reflexivity | intros id _; reflexivity].
Defined.

(** C1 as the claim states it fails: line 183 and line 184 are two steps,
    and when two threads run line 183 before either runs line 184 they hold
    the same identifier. *)
Lemma C1_counterexample :
  ¬ ∀ c method1 params1 method2 params2 schedule f1 f2 id1 id2,
      is_Some (process c) →
      threads (execs (calling c [Called method1 params1; Called method2 params2])
                 schedule) = [f1; f2] →
      frame_id f1 = Some id1 →
      frame_id f2 = Some id2 →
      id1 ≠ id2.
Proof.
  intros claim.
  apply (claim connected "tools/list" None "resources/list" None Fixture.overlapping
           (Waiting 1 0) (Waiting 1 1) 1%Z 1%Z); by eauto.
Qed.

(** What follows from the shared identifier.  The server answers the two
    requests in the order it read them, both replies with id 1.  The first
    reply, the answer to the first thread's request, goes to the second
    thread, which returns it; the second reply finds no entry; the first
    thread gets nothing and, when its timeout runs out, fails on the entry
    that the second thread has removed. *)
Example overlapping_calls_cross :
  let w := calling connected
             [Called "tools/list" None; Called "resources/list" None] in
  let schedule :=
    Fixture.overlapping ++
    [Receive (Decoded (Fixture.reply 1 (JStr "tools"))); Run 1; Run 1;
     Receive (Decoded (Fixture.reply 1 (JStr "resources")));
     Elapse 0; Run 0] in
  (stdin <$> process (self (execs w Fixture.overlapping))) =
    Some [request_of 1 "tools/list" None; request_of 1 "resources/list" None] ∧
  threads (execs w schedule) =
    [Raised (Builtin (KeyError (KInt 1))); Returned (JStr "tools")].
Proof. split; reflexivity. Qed.

End ConcurrentCalls.

(** * The two reader loops *)

Section ReaderLoops.

Lemma read_lines_stopped c lines :
  Client.running c = false → Client.read_lines c lines = c.
Proof. intros H. destruct lines as [|[] lines]; cbn; try done; by rewrite H. Qed.

Lemma read_lines_garbled c pre e post :
  Client.read_lines c (pre ++ Garbled e :: post) = Client.read_lines c pre.
Proof.
  revert c. induction pre as [|line pre IH]; intros c; [done|].
  destruct line; cbn; try done; by destruct (Client.running c).
Qed.

(** C8.  Where the loops do not go on.  The server's loop catches
    [JSONDecodeError] alone: a line on which [json.loads] raises another
    exception ends [run] with that exception, wherever the line stands in
    the stream; nothing is written for it and the lines after it are not
    read.  Bytes that are not text end both loops: the server's with the
    exception of the iteration, the client's reader thread with its state
    as it was before them, the lines after them unread. *)
Theorem C8_decode_fault_ends_loop :
  (∀ fault s pre e post,
     (Server.run fault s pre).2 = None →
     Server.run fault s (pre ++ Refused e :: post) =
       ((Server.run fault s pre).1, Some e)) ∧
  (∀ fault s pre e post,
     (Server.run fault s pre).2 = None →
     Server.run fault s (pre ++ Garbled e :: post) =
       ((Server.run fault s pre).1, Some e)) ∧
  (∀ c pre e post,
     Client._read_loop c (pre ++ Garbled e :: post) = Client._read_loop c pre) ∧
  (∀ w e,
     Client.reader w = true →
     Client.exec w (Client.Receive (Garbled e)) =
       {| Client.self := Client.self w; Client.threads := Client.threads w;
          Client.reader := false |}).
Proof.
  split; [|split; [|split]].
  - intros fault s pre e post Hpre. rewrite run_app.
    by destruct (Server.run fault s pre) as [s1 [e1|]].
  - intros fault s pre e post Hpre. rewrite run_app.
    by destruct (Server.run fault s pre) as [s1 [e1|]].
  - intros c pre e post. unfold Client._read_loop.
    destruct (Client.process c); [apply read_lines_garbled|done].
  - intros w e Hreader. cbn. by rewrite Hreader.
Qed.

(** The server between two requests: a line of two thousand opening
    brackets, on which [json.loads] raises [RecursionError], ends the loop;
    the first request has its reply, the second is never read. *)
Example deep_line_ends_server_loop :
  let e := OtherException
             "maximum recursion depth exceeded while decoding a JSON array from a unicode string" in
  let lines := [Decoded (Fixture.request 1 "tools/list" (JObj []));
                Refused e;
                Decoded (Fixture.request 2 "tools/list" (JObj []))] in
  (Server.run Fixture.no_fault Fixture.server lines).2 = Some e ∧
  (λ reply, Py.get reply "id" JNull)
    <$> Server.stdout (Server.run Fixture.no_fault Fixture.server lines).1 =
    [Ok (JInt 1)].
Proof. split; reflexivity. Qed.

(** The same line in the client is caught by the second inner [except]
    clause: the reply after it reaches the call that waits for it. *)
Example deep_line_skipped_by_client :
  let e := OtherException
             "maximum recursion depth exceeded while decoding a JSON array from a unicode string" in
  Client.queues
    (Client._read_loop (Client.self Fixture.waiting)
       [Refused e; Decoded (Fixture.reply 1 (JStr "tools"))]) =
    [[Fixture.reply 1 (JStr "tools")]].
Proof. reflexivity. Qed.

(** A line on which [json.loads] raises [JSONDecodeError] is answered by
    the server with a Parse error reply, and the lines after it get their
    replies. *)
Example malformed_line_between_requests :
  let lines := [Decoded (Fixture.request 1 "ghost" (JObj []));
                Malformed;
                Blank;
                Decoded (Fixture.request 2 "tools/call"
                           (JObj [("name", JStr "echo");
                                  ("arguments", JObj [("v", JStr "hi")])]))] in
  (Server.run Fixture.no_fault Fixture.server lines).2 = None ∧
  (λ reply, (error_code reply, Py.assoc "id" match reply with JObj kv => kv | _ => [] end))
    <$> Server.stdout (Server.run Fixture.no_fault Fixture.server lines).1 =
    [(Some (JInt (-32601)), Some (JInt 1));
     (Some (JInt (-32700)), Some JNull);
     (None, Some (JInt 2))].
Proof. split; reflexivity. Qed.

End ReaderLoops.

(** * More of the server *)

Section ServerRouting.

Import Server.

(** [handle_request] on a document that is an object. *)
(** X1.  A message without an id, or with a null id, never gets a reply:
    whether the method is unknown, its handler returns, or its handler
    raises, [handle_request] returns [None].  The handler of a registered
    method is run all the same, and the server is left as the handler
    leaves it. *)
Theorem X1_notification_gets_no_reply s kv k :
  default JNull (Py.assoc "id" kv) = JNull →
  Py.hash (default JNull (Py.assoc "method" kv)) = Ok k →
  (handle_request s (JObj kv)).2 = Ok None ∧
  ∀ handler,
    Py.find k methods = Some handler →
    (handle_request s (JObj kv)).1 =
      (handler (call (MethodHandler (Py.str k)) s)
         (default (JObj []) (Py.assoc "params" kv))).1.
Proof.
  intros Hid Hmethod. rewrite handle_request_object. cbv zeta.
  rewrite Hid, Hmethod. cbn [is_None].
  destruct (eq_str _ _) eqn:Heq.
  - split; [done|]. intros handler Hreg.
    destruct (default JNull (Py.assoc "method" kv)); try discriminate.
    cbn in Heq, Hmethod. apply bool_decide_eq_true in Heq.
    simplify_eq; try discriminate Hreg.
  - destruct (Py.find k methods) as [handler|]; [|by split].
    destruct (handler _ _) as [s' [result|e]] eqn:Hrun; cbn.
    + split; [done|]. intros ? [= <-]. by rewrite Hrun.
    + split; [by destruct (is_ValueError e)|].
      intros ? [= <-]. rewrite Hrun. by destruct (is_ValueError e).
Qed.

Lemma X1_notification_gets_no_reply_witness :
  let kv := [("jsonrpc", JStr "2.0"); ("method", JStr "tools/call");
             ("params", JObj [("name", JStr "boom")])] in
  (handle_request Fixture.server (JObj kv)).2 = Ok None ∧
  ∀ handler,
    Py.find (KStr "tools/call") methods = Some handler →
    (handle_request Fixture.server (JObj kv)).1 =
      (handler (call (MethodHandler "tools/call") Fixture.server)
         (JObj [("name", JStr "boom")])).1.
Proof.
  apply (X1_notification_gets_no_reply Fixture.server
           [("jsonrpc", JStr "2.0"); ("method", JStr "tools/call");
            ("params", JObj [("name", JStr "boom")])]
           (KStr "tools/call"));
    reflexivity.
Defined.

(** X2.  Whatever [handle_request] replies is an envelope of three
    members: "jsonrpc" with "2.0", "id" with the id of the request, which
    is not null, and either "result" or "error", never both; an error
    carries one of the codes -32601, -32602 and -32603. *)
Theorem X2_reply_envelope s request s' reply :
  handle_request s request = (s', Ok (Some reply)) →
  ∃ kv request_id member value,
    request = JObj kv ∧
    Py.assoc "id" kv = Some request_id ∧
    request_id ≠ JNull ∧
    reply = JObj [("jsonrpc", JStr "2.0"); ("id", request_id); (member, value)] ∧
    (member = "result" ∨
     member = "error" ∧
     ∃ code, error_code reply = Some (JInt code) ∧
             code ∈ [-32601; -32602; -32603]%Z).
Proof.
  destruct request as [| | | | |kv]; try discriminate.
  rewrite handle_request_object. cbv zeta.
  destruct (Py.assoc "id" kv) as [request_id|] eqn:Hid;
    cbn [default from_option id];
    [|cbn [is_None]; by repeat case_match].
  intros Hreply.
  assert (Hnull : request_id ≠ JNull).
  { intros ->. cbn in Hreply. by repeat case_match. }
  rewrite (is_None_false _ Hnull) in Hreply.
  destruct (eq_str _ _); [discriminate|].
  destruct (Py.hash _) as [k|]; [|discriminate].
  destruct (Py.find k methods) as [handler|].
  - destruct (handler _ _) as [s'' [result|e]].
    + simplify_eq. exists kv, request_id, "result", result. eauto 10.
    + destruct (is_ValueError e); simplify_eq.
      * eexists kv, request_id, "error", _.
        repeat split; try done. right. split; [done|].
        exists (-32602)%Z. split; [done|]. set_solver.
      * eexists kv, request_id, "error", _.
        repeat split; try done. right. split; [done|].
        exists (-32603)%Z. split; [done|]. set_solver.
  - simplify_eq. eexists kv, request_id, "error", _.
    repeat split; try done. right. split; [done|].
    exists (-32601)%Z. split; [done|]. set_solver.
Qed.

Lemma X2_reply_envelope_witness :
  ∃ kv request_id member value,
    Fixture.request 7 "ghost" (JObj []) = JObj kv ∧
    Py.assoc "id" kv = Some request_id ∧
    request_id ≠ JNull ∧
    JObj [("jsonrpc", JStr "2.0"); ("id", JInt 7);
          ("error", JObj [("code", JInt (-32601));
                          ("message", JStr "Method not found: ghost");
                          ("data", JObj [("method", JStr "ghost")])])] =
      JObj [("jsonrpc", JStr "2.0"); ("id", request_id); (member, value)] ∧
    (member = "result" ∨
     member = "error" ∧
     ∃ code,
       error_code
         (JObj [("jsonrpc", JStr "2.0"); ("id", JInt 7);
                ("error", JObj [("code", JInt (-32601));
                                ("message", JStr "Method not found: ghost");
                                ("data", JObj [("method", JStr "ghost")])])]) =
         Some (JInt code) ∧
       code ∈ [-32601; -32602; -32603]%Z).
Proof.
  apply (X2_reply_envelope Fixture.server (Fixture.request 7 "ghost" (JObj []))
           Fixture.server).
  reflexivity.
Defined.

(** X3.  A line that decodes to something other than an object, and a
    request whose method is a list or an object, are not answered: the
    exception leaves [handle_request], [run] logs it and exits, nothing is
    written and the lines after it are never read. *)
Theorem X3_bad_document_ends_loop fault s rest :
  (∀ request,
     (∀ kv, request ≠ JObj kv) →
     run fault s (Decoded request :: rest) =
       (s, Some (Py.no_attribute request "get"))) ∧
  (∀ kv method e,
     Py.assoc "method" kv = Some method →
     Py.hash method = Raise e →
     run fault s (Decoded (JObj kv) :: rest) = (s, Some e)).
Proof.
  split.
  - intros request Hobject. destruct request; try done. by destruct (Hobject kv).
  - intros kv method e Hmethod Hhash. cbn [run run_line].
    rewrite handle_request_object. cbv zeta. rewrite Hmethod.
    cbn [default from_option id]. rewrite Hhash.
    by destruct method.
Qed.

Example list_document_ends_loop :
  Server.run Fixture.no_fault Fixture.server
    [Decoded (JList [Fixture.request 1 "tools/list" (JObj [])]);
     Decoded (Fixture.request 2 "tools/list" (JObj []))] =
    (Fixture.server, Some (AttributeError "'list' object has no attribute 'get'")).
Proof. reflexivity. Qed.

Lemma methods_initialized_blind method handler s params b :
  Py.assoc method methods = Some handler →
  (handler (set_initialized b s) params).2 = (handler s params).2.
Proof.
  intros Hreg. unfold methods in Hreg. cbn in Hreg.
  repeat case_decide; simplify_eq.
  - unfold _handle_initialize. by destruct (_ ≫= _).
  - done.
  - unfold _handle_tools_call. destruct (_ ≫= _) as [[k arguments]|]; [|done].
    cbn. destruct (Py.find k (tools s)) as [[tool handler]|]; [|done].
    by destruct (handler arguments).
  - done.
  - unfold _handle_resources_read. destruct (_ ≫= _) as [[uri k]|]; [|done].
    cbn. destruct (Py.find k (resources s)) as [[resource [content|e]]|]; done.
  - done.
  - unfold _handle_prompts_get. destruct (_ ≫= _) as [[k arguments]|]; [|done].
    cbn. destruct (Py.find k (prompts s)) as [[prompt handler]|]; [|done].
    by destruct (handler arguments).
Qed.

(** X4.  The server never consults [initialized]: what it replies to a
    document is the same before and after an [initialize] request, so every
    method is served without a handshake. *)
Theorem X4_initialized_never_consulted s b request :
  (handle_request (set_initialized b s) request).2 = (handle_request s request).2.
Proof.
  destruct request as [| | | | |kv]; try done.
  rewrite !handle_request_object. cbv zeta.
  destruct (eq_str _ _); [done|].
  destruct (Py.hash _) as [k|]; [|done].
  destruct (Py.find k methods) as [handler|] eqn:Hreg;
    [|by destruct (is_None _)].
  assert (Hblind : (handler (set_initialized b (call (MethodHandler (Py.str k)) s))
                      (default (JObj []) (Py.assoc "params" kv))).2 =
                   (handler (call (MethodHandler (Py.str k)) s)
                      (default (JObj []) (Py.assoc "params" kv))).2).
  { destruct k; try discriminate. by eapply methods_initialized_blind. }
  change (call ?f (set_initialized b s)) with (set_initialized b (call f s)).
  destruct (handler (set_initialized b _) _) as [s1 r1].
  destruct (handler (call _ s) _) as [s2 r2]. cbn in Hblind. subst r2.
  destruct r1 as [result|e]; [by destruct (is_None _)|].
  by destruct (is_ValueError e), (is_None _).
Qed.

End ServerRouting.

(** * Registration *)

Section Registration.

Import Server.

Lemma assoc_set_eq {A} k (v : A) kv : Py.assoc k (Py.assoc_set k v kv) = Some v.
Proof.
  induction kv as [|[k' v'] kv IH]; cbn.
  - by rewrite decide_True.
  - destruct (decide (k' = k)) as [->|Hne]; cbn.
    + by rewrite decide_True.
    + by rewrite decide_False.
Qed.

Lemma assoc_set_ne {A} k k' (v : A) kv :
  k ≠ k' → Py.assoc k' (Py.assoc_set k v kv) = Py.assoc k' kv.
Proof.
  intros Hne. induction kv as [|[k'' v''] kv IH]; cbn.
  - by rewrite decide_False.
  - destruct (decide (k'' = k)) as [->|Hne']; cbn.
    + by rewrite !decide_False.
    + by rewrite IH.
Qed.

Lemma assoc_set_absent {A} k (v : A) kv :
  Py.assoc k kv = None → Py.assoc_set k v kv = kv ++ [(k, v)].
Proof.
  induction kv as [|[k' v'] kv IH]; cbn; [done|].
  destruct (decide (k' = k)); [done|]. intros H. by rewrite IH.
Qed.

Lemma assoc_set_present {A} k (v : A) kv :
  is_Some (Py.assoc k kv) → (Py.assoc_set k v kv).*1 = kv.*1.
Proof.
  induction kv as [|[k' v'] kv IH]; cbn; [by intros [? ?]|].
  destruct (decide (k' = k)) as [->|]; cbn; [done|].
  intros H. by rewrite IH.
Qed.

(** X5.  A tool that has been registered is the one that [tools/call]
    runs under its name, also when the name was registered before: the
    handler given last is called with the arguments of the request (an
    empty dict when there are none) and its text, or its fault, comes back
    as the content.  Tools under other names stay as they were. *)
Theorem X5_registered_tool_is_called s name description input_schema handler
    params :
  Py.assoc "name" params = Some (JStr name) →
  let s' := register_tool name description input_schema handler s in
  _handle_tools_call s' (JObj params) =
    (call (ToolHandler name) s',
     Ok match handler (default (JObj []) (Py.assoc "arguments" params)) with
        | Ok text => text_content text false
        | Raise e => text_content ("Error: " +:+ Py.exn_str e) true
        end) ∧
  ∀ other, other ≠ name → Py.assoc other (tools s') = Py.assoc other (tools s).
Proof.
  intros Hname s'. split.
  - rewrite (_handle_tools_call_unfold _ _ _ Hname). unfold s'. cbn [tools register_tool set_tools].
    rewrite assoc_set_eq. cbn zeta.
    by destruct (handler _).
  - intros other Hne. unfold s'. cbn [tools register_tool set_tools].
    by apply assoc_set_ne.
Qed.

Lemma X5_registered_tool_is_called_witness :
  let params := [("name", JStr "echo"); ("arguments", JObj [("v", JStr "hi")])] in
  let s' := register_tool "echo" "returns v twice" (JObj [])
              Fixture.echo_twice Fixture.server in
  _handle_tools_call s' (JObj params) =
    (call (ToolHandler "echo") s', Ok (text_content "hihi" false)) ∧
  ∀ other, other ≠ "echo" →
    Py.assoc other (tools s') = Py.assoc other (tools Fixture.server).
Proof.
  exact (X5_registered_tool_is_called Fixture.server "echo" "returns v twice"
           (JObj []) Fixture.echo_twice
           [("name", JStr "echo"); ("arguments", JObj [("v", JStr "hi")])]
           eq_refl).
Defined.

(** X6.  [tools/list] lists the registered tools in the order of their
    first registration.  Registering a new name appends one tool to the
    list; registering a name again leaves the number of tools and their
    order as they were and the tool under that name is the new one. *)
Theorem X6_tools_list_after_register s name description input_schema handler
    params :
  let s' := register_tool name description input_schema handler s in
  let tool := {| tool_name := name; tool_description := description;
                 inputSchema := input_schema |} in
  let listing s := (λ entry, asdict_Tool entry.2.1) <$> tools s in
  _handle_tools_list s' params = (s', Ok (JObj [("tools", JList (listing s'))])) ∧
  (Py.assoc name (tools s) = None →
   listing s' = listing s ++ [asdict_Tool tool]) ∧
  (is_Some (Py.assoc name (tools s)) →
   (tools s').*1 = (tools s).*1 ∧
   length (listing s') = length (listing s) ∧
   Py.assoc name (tools s') = Some (tool, handler)).
Proof.
  intros s' tool listing. split; [done|]. split.
  - intros Habsent. unfold listing, s'. cbn [tools register_tool set_tools].
    rewrite (assoc_set_absent _ _ _ Habsent). by rewrite fmap_app.
  - intros Hpresent. unfold listing, s'. cbn [tools register_tool set_tools].
    pose proof (assoc_set_present name (tool, handler) _ Hpresent) as Hkeys.
    split; [done|]. split; [|apply assoc_set_eq].
    rewrite !length_fmap.
    apply (f_equal length) in Hkeys. by rewrite !length_fmap in Hkeys.
Qed.

Example tools_list_of_fixture :
  (_handle_tools_list Fixture.server JNull).2 =
    Ok (JObj [("tools",
               JList [JObj [("name", JStr "echo");
                            ("description", JStr "returns v");
                            ("inputSchema", JObj [])];
                      JObj [("name", JStr "boom");
                            ("description", JStr "always fails");
                            ("inputSchema", JObj [])]])]).
Proof. reflexivity. Qed.

Lemma methods_resources_read :
  Py.assoc "resources/read" methods = Some _handle_resources_read.
Proof. reflexivity. Qed.

Lemma methods_prompts_get :
  Py.assoc "prompts/get" methods = Some _handle_prompts_get.
Proof. reflexivity. Qed.

(** X7.  Reading a registered resource runs its handler and replies with
    one content that carries the uri asked for, the registered MIME type
    and what the handler returned.  Unlike a tool's, a resource handler's
    fault is not caught by the method: it becomes an error reply, -32602
    for a [ValueError] and -32603 otherwise. *)
Theorem X7_resource_read s uri name description mime_type handler kv
    request_id params :
  Py.assoc "id" kv = Some request_id →
  request_id ≠ JNull →
  Py.assoc "method" kv = Some (JStr "resources/read") →
  Py.assoc "params" kv = Some (JObj params) →
  Py.assoc "uri" params = Some (JStr uri) →
  let s' := register_resource uri name description mime_type handler s in
  handle_request s' (JObj kv) =
    (call (ResourceHandler uri) (call (MethodHandler "resources/read") s'),
     Ok (Some
           match handler with
           | Ok content =>
               _create_success_response request_id
                 (JObj [("contents",
                         JList [JObj [("uri", JStr uri);
                                      ("mimeType", JStr mime_type);
                                      ("text", content)]])])
           | Raise e =>
               if is_ValueError e then
                 _create_error_response request_id INVALID_PARAMS
                   (Py.exn_str e) None
               else
                 _create_error_response request_id INTERNAL_ERROR
                   "Internal server error"
                   (Some [("details", JStr (Py.exn_str e))])
           end)).
Proof.
  intros Hid Hnull Hmethod Hparams Huri s'.
  rewrite (handle_request_unfold _ _ _ _ Hid Hmethod) by discriminate.
  rewrite methods_resources_read, Hparams. cbn [default from_option id].
  unfold _handle_resources_read, Py.get. rewrite Huri.
  cbn [default from_option id mbind outcome_bind Py.hash Py.find Py.str].
  unfold s' at 1. cbn [resources register_resource set_resources call].
  rewrite assoc_set_eq. cbn [mimeType].
  rewrite (is_None_false _ Hnull).
  destruct handler as [content|e]; [done|].
  by destruct (is_ValueError e).
Qed.

Lemma X7_resource_read_witness :
  let s' := register_resource "file:///project/README.md" "README"
              "project notes" "text/markdown" (Ok (JStr "# MCP"))
              Fixture.server in
  handle_request s'
    (Fixture.request 8 "resources/read"
       (JObj [("uri", JStr "file:///project/README.md")])) =
    (call (ResourceHandler "file:///project/README.md")
       (call (MethodHandler "resources/read") s'),
     Ok (Some (JObj [("jsonrpc", JStr "2.0"); ("id", JInt 8);
                     ("result",
                      JObj [("contents",
                             JList [JObj [("uri", JStr "file:///project/README.md");
                                          ("mimeType", JStr "text/markdown");
                                          ("text", JStr "# MCP")]])])]))).
Proof.
  exact (X7_resource_read Fixture.server "file:///project/README.md" "README"
           "project notes" "text/markdown" (Ok (JStr "# MCP"))
           [("jsonrpc", JStr "2.0"); ("id", JInt 8);
            ("method", JStr "resources/read");
            ("params", JObj [("uri", JStr "file:///project/README.md")])]
           (JInt 8) [("uri", JStr "file:///project/README.md")]
           eq_refl ltac:(discriminate) eq_refl eq_refl eq_refl).
Defined.

(** X8.  Getting a registered prompt runs its handler on the arguments of
    the request (an empty dict when there are none) and replies with the
    registered description and the messages the handler returned; a fault
    of the handler becomes an error reply, -32602 for a [ValueError] and
    -32603 otherwise. *)
Theorem X8_prompt_get s name description arguments handler kv request_id
    params :
  Py.assoc "id" kv = Some request_id →
  request_id ≠ JNull →
  Py.assoc "method" kv = Some (JStr "prompts/get") →
  Py.assoc "params" kv = Some (JObj params) →
  Py.assoc "name" params = Some (JStr name) →
  let s' := register_prompt name description arguments handler s in
  handle_request s' (JObj kv) =
    (call (PromptHandler name) (call (MethodHandler "prompts/get") s'),
     Ok (Some
           match handler (default (JObj []) (Py.assoc "arguments" params)) with
           | Ok messages =>
               _create_success_response request_id
                 (JObj [("description", JStr description);
                        ("messages", messages)])
           | Raise e =>
               if is_ValueError e then
                 _create_error_response request_id INVALID_PARAMS
                   (Py.exn_str e) None
               else
                 _create_error_response request_id INTERNAL_ERROR
                   "Internal server error"
                   (Some [("details", JStr (Py.exn_str e))])
           end)).
Proof.
  intros Hid Hnull Hmethod Hparams Hname s'.
  rewrite (handle_request_unfold _ _ _ _ Hid Hmethod) by discriminate.
  rewrite methods_prompts_get, Hparams. cbn [default from_option id].
  unfold _handle_prompts_get, Py.get. rewrite Hname.
  cbn [default from_option id mbind outcome_bind Py.hash Py.find Py.str].
  unfold s' at 1. cbn [prompts register_prompt set_prompts call].
  rewrite assoc_set_eq. cbn [prompt_description].
  rewrite (is_None_false _ Hnull).
  destruct (handler _) as [messages|e]; [done|].
  by destruct (is_ValueError e).
Qed.

Lemma X8_prompt_get_witness :
  let s' := register_prompt "code_review" "review template" (JList [])
              (λ arguments, Raise (ValueError "language is required"))
              Fixture.server in
  handle_request s'
    (Fixture.request 9 "prompts/get" (JObj [("name", JStr "code_review")])) =
    (call (PromptHandler "code_review") (call (MethodHandler "prompts/get") s'),
     Ok (Some (JObj [("jsonrpc", JStr "2.0"); ("id", JInt 9);
                     ("error",
                      JObj [("code", JInt (-32602));
                            ("message", JStr "language is required")])]))).
Proof.
  exact (X8_prompt_get Fixture.server "code_review" "review template" (JList [])
           (λ arguments, Raise (ValueError "language is required"))
           [("jsonrpc", JStr "2.0"); ("id", JInt 9);
            ("method", JStr "prompts/get");
            ("params", JObj [("name", JStr "code_review")])]
           (JInt 9) [("name", JStr "code_review")]
           eq_refl ltac:(discriminate) eq_refl eq_refl eq_refl).
Defined.

End Registration.

(** * The output of the server *)

Section ServerOutput.

Import Server.

Lemma run_line_writes_at_most_one fault s line :
  ∃ out,
    stdout (run_line fault s line).1 = stdout s ++ out ∧ (length out ≤ 1)%nat.
Proof.
  assert (Hnone : ∀ s' : MCPServer,
            stdout s' = stdout s →
            ∃ out, stdout s' = stdout s ++ out ∧ (length out ≤ 1)%nat).
  { intros s' ->. exists []. rewrite app_nil_r. split; [done|cbn; lia]. }
  assert (Hwrite : ∀ message s',
            stdout s' = stdout s →
            ∃ out, stdout (_write_message fault message s').1 = stdout s ++ out ∧
                   (length out ≤ 1)%nat).
  { intros message s' Hs'. unfold _write_message.
    destruct (fault _ message); cbn; [by apply Hnone|].
    exists [message]. rewrite Hs'. split; [done|cbn; lia]. }
  destruct line as [| |e|request|e]; cbn [run_line fst];
    [by apply Hnone|by apply Hwrite|by apply Hnone| |by apply Hnone].
  pose proof (handle_request_keeps_stdout s request) as Hkeep.
  destruct (handle_request s request) as [s1 r]. cbn in Hkeep.
  destruct r as [[response|]|e]; cbn; [|by apply Hnone..].
  destruct (Py.truthy response); [by apply Hwrite|by apply Hnone].
Qed.

(** X9.  The loop of [run] only ever appends to what it has written, and
    it writes at most one document for each line it reads. *)
Theorem X9_at_most_one_document_per_line fault s lines :
  ∃ out,
    stdout (run fault s lines).1 = stdout s ++ out ∧
    (length out ≤ length lines)%nat.
Proof.
  revert s. induction lines as [|line lines IH]; intros s.
  - exists []. cbn. rewrite app_nil_r. split; [done|lia].
  - destruct (run_line_writes_at_most_one fault s line) as (out1 & Hout1 & Hlen1).
    cbn [run].
    destruct (run_line fault s line) as [s1 [e|]]; cbn in Hout1.
    + exists out1. cbn. split; [done|lia].
    + destruct (IH s1) as (out2 & Hout2 & Hlen2).
      exists (out1 ++ out2). rewrite Hout2, Hout1, app_assoc, length_app.
      split; [done|cbn; lia].
Qed.

Lemma run_blank fault s pre post :
  run fault s (pre ++ Blank :: post) = run fault s (pre ++ post).
Proof.
  rewrite !run_app. by destruct (run fault s pre) as [s1 [e|]].
Qed.

Lemma read_lines_blank c pre post :
  Client.read_lines c (pre ++ Blank :: post) = Client.read_lines c (pre ++ post).
Proof.
  revert c. induction pre as [|line pre IH]; intros c.
  - cbn. destruct (Client.running c) eqn:H; [done|].
    by rewrite read_lines_stopped.
  - destruct line; cbn; try done; by rewrite IH.
Qed.

(** X10.  Both loops pass over a line that is empty once stripped: the
    server ends with the same state, output and outcome, and the client in
    the same state, as on the stream without that line. *)
Theorem X10_blank_lines_skipped pre post :
  (∀ fault s, run fault s (pre ++ Blank :: post) = run fault s (pre ++ post)) ∧
  (∀ c, Client._read_loop c (pre ++ Blank :: post) =
        Client._read_loop c (pre ++ post)).
Proof.
  split.
  - intros fault s. apply run_blank.
  - intros c. unfold Client._read_loop.
    destruct (Client.process c); [apply read_lines_blank|done].
Qed.

End ServerOutput.

(** * Client and server together *)

Section Together.

Import Server Client.

(** X11.  Whatever the server replies to a document, the client's call
    ends on it in one of two ways: it returns the "result" member of the
    reply, or it raises the server error with the code and the message of
    the reply.  Decoding the envelope never fails. *)
Theorem X11_reply_decoded s request s' reply :
  handle_request s request = (s', Ok (Some reply)) →
  (∃ result,
     Py.getitem reply "result" = Ok result ∧
     error_code reply = None ∧
     check_response reply = Returned result) ∨
  (∃ message code,
     error_message reply = Some (JStr message) ∧
     error_code reply = Some (JInt code) ∧
     check_response reply = Raised (ServerError (JStr message) (JInt code))).
Proof.
  destruct request as [| | | | |kv]; try discriminate.
  rewrite handle_request_object. cbv zeta.
  destruct (eq_str _ _); [discriminate|].
  destruct (Py.hash _) as [k|]; [|discriminate].
  destruct (Py.find k methods) as [handler|].
  - destruct (handler _ _) as [s'' [result|e]].
    + destruct (is_None _); intros; simplify_eq. left. by exists result.
    + destruct (is_ValueError e), (is_None _); intros; simplify_eq;
        right; by eexists _, _.
  - destruct (is_None _); intros; simplify_eq. right. by eexists _, _.
Qed.

Lemma X11_reply_decoded_witness :
  let reply :=
    JObj [("jsonrpc", JStr "2.0"); ("id", JInt 6);
          ("error", JObj [("code", JInt (-32602));
                          ("message", JStr "Tool not found: non_existent_tool")])] in
  (∃ result,
     Py.getitem reply "result" = Ok result ∧
     error_code reply = None ∧
     check_response reply = Returned result) ∨
  (∃ message code,
     error_message reply = Some (JStr message) ∧
     error_code reply = Some (JInt code) ∧
     check_response reply = Raised (ServerError (JStr message) (JInt code))).
Proof.
  exact (X11_reply_decoded Fixture.server
           (Fixture.request 6 "tools/call" (JObj [("name", JStr "non_existent_tool")]))
           (call (MethodHandler "tools/call") Fixture.server) _ eq_refl).
Defined.

(** X12.  When the child has exited, a call on a connected client fails at
    the write: it raises [RuntimeError] with the text of the write's
    exception, nothing is added to what was written, and the entry it had
    registered is removed again.  The identifier it took stays taken and
    the queue it made stays in the heap. *)
Theorem X12_send_failure c p method params :
  process c = Some p →
  alive p = false →
  let w := execs (calling c [Called method params]) (replicate 6 (Run 0)) in
  threads w =
    [Raised (RuntimeError "Failed to send request: [Errno 32] Broken pipe")] ∧
  process (self w) = Some p ∧
  pending_requests (self w) = delete (next_id c) (pending_requests c) ∧
  next_id (self w) = (next_id c + 1)%Z ∧
  queues (self w) = queues c ++ [[]].
Proof.
  intros Hprocess Halive. cbn. rewrite Hprocess. cbn.
  unfold write. cbn. rewrite Hprocess, Halive. cbn.
  rewrite lookup_insert_eq. cbn. rewrite Hprocess.
  by rewrite delete_insert_eq.
Qed.

Lemma X12_send_failure_witness :
  let c := stop connected in
  let w := execs (calling c [Called "tools/list" None]) (replicate 6 (Run 0)) in
  threads w =
    [Raised (RuntimeError "Failed to send request: [Errno 32] Broken pipe")] ∧
  process (self w) = Some {| stdin := []; alive := false |} ∧
  pending_requests (self w) = delete (next_id c) (pending_requests c) ∧
  next_id (self w) = (next_id c + 1)%Z ∧
  queues (self w) = queues c ++ [[]].
Proof.
  exact (X12_send_failure (stop connected) {| stdin := []; alive := false |}
           "tools/list" None eq_refl eq_refl).
Defined.

End Together.

(** * Identifiers *)

Section Identifiers.

Import Client.

Lemma step_not_below n c f c' f' :
  step c f = Some (c', f') →
  (n ≤ next_id c)%Z →
  not_below n f →
  (n ≤ next_id c')%Z ∧ not_below n f' ∧
  ∀ id, (id < n)%Z → pending_requests c' !! id = pending_requests c !! id.
Proof.
  intros Hstep Hnext Hf.
  assert (Hover : ∀ f0, is_over f0 = true → not_below n f0).
  { intros f0 H. destruct f0; try discriminate; by intros ? [=]. }
  assert (Hdelete : ∀ request_id id,
            (n ≤ request_id)%Z → (id < n)%Z →
            delete request_id (pending_requests c) !! id =
              pending_requests c !! id).
  { intros request_id id ? ?. apply lookup_delete_ne. lia. }
  destruct f; cbn in Hstep, Hf.
  - destruct (process c); simplify_eq; (split; [done|split; [|done]]);
      by intros ? [=].
  - simplify_eq. split; [done|split; [|done]]. by intros ? [= <-].
  - simplify_eq. specialize (Hf _ eq_refl). by repeat split.
  - simplify_eq. destruct Hf as [Hid Hloaded]. cbn.
    split; [lia|split; [|done]]. by intros ? [= <-].
  - simplify_eq. specialize (Hf _ eq_refl). cbn.
    split; [done|split].
    + by intros ? [= <-].
    + intros id Hid. apply lookup_insert_ne. lia.
  - specialize (Hf _ eq_refl).
    destruct (write request c) as [c1|e] eqn:Hwrite.
    + simplify_eq. unfold write in Hwrite.
      destruct (process c) as [p|]; [|done].
      destruct (alive p); simplify_eq. cbn.
      split; [done|split; [|done]]. by intros ? [= <-].
    + destruct (pending_requests c !! request_id); simplify_eq; cbn;
        (split; [done|split; [by intros ? [=]|]]); [|done].
      intros id Hid. by apply Hdelete.
  - specialize (Hf _ eq_refl).
    destruct (queues c !! response_queue) as [[|response items]|];
      simplify_eq. cbn. split; [done|split; [|done]]. by intros ? [= <-].
  - specialize (Hf _ eq_refl).
    destruct (pending_requests c !! request_id); simplify_eq; cbn;
      (split; [done|split; [by intros ? [=]|]]); [|done].
    intros id Hid. by apply Hdelete.
  - simplify_eq. specialize (Hf _ eq_refl).
    pose proof (Hover _ (check_response_over response)) as Hend.
    destruct (pending_requests c !! request_id); cbn;
      (split; [done|split; [done|]]); [|done].
    intros id Hid. by apply Hdelete.
  - done.
  - done.
Qed.

Lemma exec_not_below n w e :
  (n ≤ next_id (self w))%Z →
  (∀ t f, threads w !! t = Some f → not_below n f) →
  (n ≤ next_id (self (exec w e)))%Z ∧
  (∀ t f, threads (exec w e) !! t = Some f → not_below n f) ∧
  ∀ id, (id < n)%Z →
    pending_requests (self (exec w e)) !! id = pending_requests (self w) !! id.
Proof.
  intros Hnext Hthreads.
  assert (Hsame : ∀ w',
            next_id (self w') = next_id (self w) →
            pending_requests (self w') = pending_requests (self w) →
            threads w' = threads w →
            (n ≤ next_id (self w'))%Z ∧
            (∀ t f, threads w' !! t = Some f → not_below n f) ∧
            ∀ id, (id < n)%Z →
              pending_requests (self w') !! id = pending_requests (self w) !! id).
  { intros w' -> -> ->. done. }
  destruct e as [t|t|line| |]; cbn [exec].
  - destruct (threads w !! t) as [f|] eqn:Ht; [|by apply Hsame].
    destruct (step (self w) f) as [[c' f']|] eqn:Hstep; cbn; [|by apply Hsame].
    destruct (step_not_below n _ _ _ _ Hstep Hnext (Hthreads _ _ Ht))
      as (Hnext' & Hf' & Htable).
    split; [done|]. split; [|done].
    intros t' g Hg. apply list_lookup_insert_Some in Hg
      as [(-> & <- & _)|(_ & Hg)]; [done|by eapply Hthreads].
  - destruct (threads w !! t) as [f|] eqn:Ht; [|by apply Hsame].
    destruct (elapse (self w) f) as [[c' f']|] eqn:Helapse; cbn; [|by apply Hsame].
    destruct f; try discriminate. cbn in Helapse.
    destruct (queues (self w) !! response_queue) as [[|]|]; simplify_eq.
    split; [done|]. split; [|done].
    intros t' g Hg. apply list_lookup_insert_Some in Hg
      as [(-> & <- & _)|(_ & Hg)]; [|by eapply Hthreads].
    intros ? [= <-]. by apply (Hthreads _ _ Ht).
  - destruct (reader w); [|by apply Hsame].
    destruct line; try (by apply Hsame);
      (destruct (running (self w)); [|by apply Hsame]);
      apply Hsame; cbn; try done; apply handle_message_fields.
  - by apply Hsame.
  - apply Hsame; cbn; [| |done].
    + unfold stop. cbn. by destruct (process (self w)).
    + unfold stop. cbn. by destruct (process (self w)).
Qed.

(** X13.  Calls never go back below an identifier that [next_id] has
    reached.  When [next_id] is [n] or more and no calling thread holds an
    identifier, or a loaded value of [next_id], below [n], then after every
    schedule of events, any number of threads stepping in any
    interleaving, also between the load and the store of line 184,
    timeouts, lines read, [stop], [next_id] is still [n] or more, no thread
    holds an identifier below [n], and every entry of [pending_requests]
    under an identifier below [n] is as it was. *)
Theorem X13_identifiers_never_below_start n w schedule :
  (n ≤ next_id (self w))%Z →
  (∀ t f, threads w !! t = Some f → not_below n f) →
  (n ≤ next_id (self (execs w schedule)))%Z ∧
  (∀ t f, threads (execs w schedule) !! t = Some f → not_below n f) ∧
  ∀ id, (id < n)%Z →
    pending_requests (self (execs w schedule)) !! id =
      pending_requests (self w) !! id.
Proof.
  revert w. unfold execs.
  induction schedule as [|e schedule IH]; intros w Hnext Hthreads; [done|].
  cbn [foldl].
  destruct (exec_not_below n w e Hnext Hthreads) as (Hnext' & Hthreads' & Htable).
  destruct (IH _ Hnext' Hthreads') as (Hnext'' & Hthreads'' & Htable').
  split; [done|]. split; [done|].
  intros id Hid. by rewrite Htable', Htable.
Qed.

Lemma X13_identifiers_never_below_start_witness :
  let w := calling connected
             [Called "tools/list" None; Called "resources/list" None] in
  (1 ≤ next_id (self (execs w Fixture.overlapping)))%Z ∧
  (∀ t f, threads (execs w Fixture.overlapping) !! t = Some f → not_below 1 f) ∧
  ∀ id, (id < 1)%Z →
    pending_requests (self (execs w Fixture.overlapping)) !! id =
      pending_requests (self w) !! id.
Proof.
  apply (X13_identifiers_never_below_start 1
           (calling connected
              [Called "tools/list" None; Called "resources/list" None])
           Fixture.overlapping).
  - reflexivity.
  - intros [|[|t]] f Hf; cbn in Hf; simplify_eq; intros id Hid; discriminate Hid.
Defined.

(** Above that bound [next_id] does go back.  Of three threads, the
    first loads [next_id] at line 184, the two others take identifiers 1 and
    2 and leave [next_id] at 3, and the first then stores 2: the third
    thread registers its call under an identifier that [next_id] will hand
    out again. *)
Example next_id_goes_back :
  let w := calling connected [Called "tools/list" None;
                              Called "resources/list" None;
                              Called "prompts/list" None] in
  let before := execs w (replicate 3 (Run 0) ++ replicate 4 (Run 1) ++
                         replicate 4 (Run 2)) in
  let after := execs before [Run 0; Run 2] in
  next_id (self before) = 3%Z ∧
  next_id (self after) = 2%Z ∧
  is_Some (pending_requests (self after) !! 2%Z).
Proof. cbn. split; [done|]. split; [done|]. by eexists. Qed.

End Identifiers.

(** * The reader and the table *)

Section ReaderAppends.

Import Client.

Lemma handle_message_slot c message :
  (_handle_message c message).1 =
    match slot_of c message with
    | Some queue => put queue message c
    | None => c
    end.
Proof.
  unfold _handle_message, slot_of.
  destruct message as [|b|z|text|items|kv]; cbn; try done.
  - by destruct (Py.is_infix "id" text), (Py.is_infix "method" text).
  - by do 2 (destruct (existsb _ items); cbn; try done).
  - destruct (Py.assoc "id" kv) as [id|] eqn:Hid; cbn.
    + destruct (Py.hash id) as [k|e]; cbn; [|done].
      destruct (Py.int_key k) as [request_id|]; cbn.
      * destruct (pending_requests c !! request_id) as [queue|]; cbn; [done|].
        by rewrite andb_false_r.
      * by rewrite andb_false_r.
    + rewrite andb_true_r. by destruct (bool_decide _).
Qed.

Lemma arrivals_ext c c' queue lines :
  pending_requests c' = pending_requests c →
  arrivals c' queue lines = arrivals c queue lines.
Proof.
  intros Htable. induction lines as [|line lines IH]; [done|].
  destruct line as [| |e|message|e]; cbn; try done.
  assert (Hslot : slot_of c' message = slot_of c message).
  { unfold slot_of. by rewrite Htable. }
  by rewrite Hslot, IH.
Qed.

Lemma read_lines_arrivals c lines :
  running c = true →
  let c' := read_lines c lines in
  ∀ queue items,
    queues c !! queue = Some items →
    queues c' !! queue = Some (items ++ arrivals c queue lines).
Proof.
  revert c. induction lines as [|line lines IH]; intros c Hrunning c' queue items Hitems;
    subst c'.
  - cbn. by rewrite app_nil_r.
  - assert (Hskip : read_line c line = c →
              arrivals c queue (line :: lines) = arrivals c queue lines →
              queues (read_lines (read_line c line) lines) !! queue =
                Some (items ++ arrivals c queue (line :: lines))).
    { intros -> ->. by apply IH. }
    destruct line as [| |e|message|e]; cbn [read_lines]; rewrite ?Hrunning;
      [by apply Hskip..| |cbn; by rewrite app_nil_r].
    cbn [read_line arrivals]. rewrite handle_message_slot.
    destruct (slot_of c message) as [queue'|] eqn:Hslot.
    + assert (Htable : pending_requests (put queue' message c) = pending_requests c)
        by done.
      destruct (decide (Some queue' = Some queue)) as [[= ->]|Hne].
      * rewrite (IH (put queue message c) Hrunning queue (items ++ [message])).
        -- by rewrite (arrivals_ext _ _ _ _ Htable), <- app_assoc.
        -- by apply put_lookup.
      * rewrite (IH (put queue' message c) Hrunning queue items).
        -- by rewrite (arrivals_ext _ _ _ _ Htable).
        -- cbn. rewrite list_lookup_alter_ne; [done|]. by intros ->.
    + rewrite decide_False by done. by apply IH.
Qed.

(** X14.  The reader thread only ever appends to queues, and it appends
    what has arrived.  Whatever the stream yields, [_read_loop] leaves the
    child, [next_id], [pending_requests] and [running] as they were and
    makes no queue and removes none.  Without a child, or with [running]
    false, it changes nothing.  Otherwise every queue holds afterwards what
    it held before, followed, in the order of the stream, by every
    document that the iteration has yielded for it: the documents whose
    "id" is a key of [pending_requests] with that queue, up to the point
    where the iteration raises, if it does. *)
Theorem X14_reader_appends_arrivals c lines :
  let c' := _read_loop c lines in
  (process c' = process c ∧ next_id c' = next_id c ∧
   pending_requests c' = pending_requests c ∧ running c' = running c) ∧
  length (queues c') = length (queues c) ∧
  (process c = None ∨ running c = false → c' = c) ∧
  (is_Some (process c) →
   running c = true →
   ∀ queue items,
     queues c !! queue = Some items →
     queues c' !! queue = Some (items ++ arrivals c queue lines)).
Proof.
  intros c'.
  assert (Hframe : ∀ c0 : MCPClient, ∀ lines0,
            (process (read_lines c0 lines0) = process c0 ∧
             next_id (read_lines c0 lines0) = next_id c0 ∧
             pending_requests (read_lines c0 lines0) = pending_requests c0 ∧
             running (read_lines c0 lines0) = running c0) ∧
            length (queues (read_lines c0 lines0)) = length (queues c0)).
  { intros c0 lines0. revert c0.
    induction lines0 as [|line lines0 IH]; intros c0; [done|].
    assert (Hline : (process (read_line c0 line) = process c0 ∧
                     next_id (read_line c0 line) = next_id c0 ∧
                     pending_requests (read_line c0 line) = pending_requests c0 ∧
                     running (read_line c0 line) = running c0) ∧
                    length (queues (read_line c0 line)) = length (queues c0)).
    { destruct line as [| |e|message|e]; cbn [read_line]; try done.
      rewrite handle_message_slot.
      destruct (slot_of c0 message); [|done]. cbn. by rewrite length_alter. }
    destruct Hline as ((Hp & Hn & Ht & Hr) & Hlen).
    destruct (IH (read_line c0 line)) as ((Hp' & Hn' & Ht' & Hr') & Hlen').
    assert (Hstep : (process (read_lines (read_line c0 line) lines0) = process c0 ∧
                     next_id (read_lines (read_line c0 line) lines0) = next_id c0 ∧
                     pending_requests (read_lines (read_line c0 line) lines0) =
                       pending_requests c0 ∧
                     running (read_lines (read_line c0 line) lines0) = running c0) ∧
                    length (queues (read_lines (read_line c0 line) lines0)) =
                      length (queues c0)).
    { repeat split; congruence. }
    destruct line as [| |e|message|e]; cbn [read_lines]; try done;
      by destruct (running c0) eqn:Hrunning. }
  assert (Hloop : c' = c ∧ process c = None ∨
                  c' = read_lines c lines ∧ is_Some (process c)).
  { unfold c', _read_loop. destruct (process c); eauto. }
  destruct Hloop as [[-> Hnone]|[-> Hsome]].
  - split; [done|]. split; [done|]. split; [done|].
    intros [p Hp]. congruence.
  - destruct (Hframe c lines) as (Hfields & Hlen).
    split; [done|]. split; [done|]. split.
    + intros [Hnone|Hstopped]; [|by apply read_lines_stopped].
      destruct Hsome as [p Hp]. congruence.
    + intros _ Hrunning. by apply read_lines_arrivals.
Qed.

Example replies_reach_their_queue :
  let reply := Fixture.reply 1 (JStr "tools") in
  let stray := Fixture.reply 7 (JStr "stray") in
  let garbled := Garbled (ValueError "'utf-8' codec can't decode byte 0xff in position 0: invalid start byte") in
  queues (_read_loop (self Fixture.waiting)
            [Decoded stray; Malformed; Decoded reply; Blank; Decoded reply;
             garbled; Decoded reply]) =
    [[reply; reply]].
Proof. reflexivity. Qed.

(** X15.  Only a reply to a pending call reaches a queue.  A document
    changes the client only when it is an object whose "id" member is
    hashable and equal to a key of [pending_requests]; then it is put, whole,
    in the queue registered under that key.  Every other document, a
    notification, a reply whose identifier is not pending, a document that
    is no object, leaves the client as it was, whether [_handle_message]
    returns or raises. *)
Theorem X15_only_pending_replies_queued c message :
  fst (_handle_message c message) = c ∨
  ∃ kv id k request_id queue,
    message = JObj kv ∧ Py.assoc "id" kv = Some id ∧ Py.hash id = Ok k ∧
    Py.int_key k = Some request_id ∧
    pending_requests c !! request_id = Some queue ∧
    _handle_message c message = (put queue message c, Ok ()).
Proof.
  unfold _handle_message.
  destruct message as [|b|z|text|items|kv]; cbn; try by left.
  - destruct (Py.is_infix "id" text), (Py.is_infix "method" text); cbn; by left.
  - do 2 (destruct (existsb _ items); cbn; try by left).
  - destruct (Py.assoc "id" kv) as [id|] eqn:Hid; cbn.
    + destruct (Py.hash id) as [k|e] eqn:Hhash; cbn; [|by left].
      destruct (Py.int_key k) as [request_id|] eqn:Hkey; cbn.
      * destruct (pending_requests c !! request_id) as [queue|] eqn:Hentry; cbn.
        -- right. by exists kv, id, k, request_id, queue.
        -- rewrite andb_false_r. by left.
      * rewrite andb_false_r. by left.
    + rewrite andb_true_r. destruct (bool_decide _); by left.
Qed.

End ReaderAppends.

(** * A call, from the client to the server and back *)

Section RoundTrips.

Import Server Client.

(** The server on a request that [_send_request] has built, for a
    registered method. *)
Lemma handle_request_of s request_id method params handler :
  Py.assoc method methods = Some handler →
  handle_request s (request_of request_id method params) =
    let '(s', r) := handler (call (MethodHandler method) s)
                      (default (JObj []) params) in
    (s', Ok (Some match r with
                  | Ok result => _create_success_response (JInt request_id) result
                  | Raise e =>
                      if is_ValueError e then
                        _create_error_response (JInt request_id) INVALID_PARAMS
                          (Py.exn_str e) None
                      else
                        _create_error_response (JInt request_id) INTERNAL_ERROR
                          "Internal server error"
                          (Some [("details", JStr (Py.exn_str e))])
                  end)).
Proof.
  intros Hmethod.
  assert (Hne : method ≠ "notifications/initialized").
  { intros ->. vm_compute in Hmethod. discriminate. }
  unfold request_of.
  erewrite (handle_request_unfold s _ (JInt request_id) method);
    [|by destruct params|by destruct params|done].
  rewrite Hmethod.
  replace (Py.assoc "params" _) with params by by destruct params.
  destruct (handler _ _) as [s' [result|e]]; [done|].
  by destruct (is_ValueError e).
Qed.

(** A call that runs alone on a connected client, from line 180 to its
    end, when the reader hands it the document [JObj kv] that carries its
    identifier. *)
Lemma round_trip c p method params kv :
  process c = Some p →
  alive p = true →
  running c = true →
  Py.assoc "id" kv = Some (JInt (next_id c)) →
  let w := execs (calling c [Called method params])
             (replicate 6 (Run 0) ++ [Receive (Decoded (JObj kv)); Run 0; Run 0]) in
  threads w = [check_response (JObj kv)] ∧
  wire (self w) = stdin p ++ [request_of (next_id c) method params] ∧
  process (self w) =
    Some {| stdin := stdin p ++ [request_of (next_id c) method params];
            alive := true |} ∧
  running (self w) = true ∧
  next_id (self w) = (next_id c + 1)%Z ∧
  pending_requests (self w) = delete (next_id c) (pending_requests c) ∧
  server_info (self w) = server_info c ∧
  server_capabilities (self w) = server_capabilities c.
Proof.
  intros Hprocess Halive Hrunning Hid w. subst w.
  rewrite execs_app.
  rewrite (run_to_wait _ 0 p method params) by done.
  cbn [self threads reader calling insert list_insert].
  set (c1 := sent c p method params).
  set (q := length (queues c)).
  assert (Hentry : pending_requests c1 !! next_id c = Some q).
  { cbn. by rewrite lookup_insert_eq. }
  assert (Hqueue : queues c1 !! q = Some []).
  { cbn. by apply list_lookup_middle. }
  rewrite (execs_cons _ (Receive _)).
  erewrite (exec_receive _ _ (next_id c) q); [|done|done|done|done].
  cbn [self threads reader].
  set (c2 := put q (JObj kv) c1).
  assert (Hreply : queues c2 !! q = Some [JObj kv]).
  { subst c2. by rewrite (put_lookup _ _ _ _ Hqueue). }
  rewrite execs_cons.
  erewrite exec_run; [|reflexivity|eapply step_waiting; exact Hreply].
  cbn [self threads reader insert list_insert].
  rewrite execs_cons.
  erewrite exec_run; [|reflexivity|eapply step_cleanup; exact Hentry].
  cbn [self threads reader insert list_insert].
  change (execs ?w []) with w. cbn [self threads].
  split; [done|]. unfold wire. cbn.
  repeat split; [done|]. by rewrite delete_insert_eq.
Qed.

(** X16.  [call_tool] on a registered tool, end to end.  The server
    answers the request that the client has written with a success reply,
    having run the tool's handler once on the client's arguments; the
    client's call returns the handler's text.  When the handler raised,
    the call still returns: the text is "Error: " followed by the text of
    the exception, and nothing is raised in the client. *)
Theorem X16_call_tool_round_trip c p s name tool handler arguments :
  process c = Some p →
  alive p = true →
  running c = true →
  Py.assoc name (tools s) = Some (tool, handler) →
  let text := match handler arguments with
              | Ok text => text
              | Raise e => "Error: " +:+ Py.exn_str e
              end in
  ∃ s' reply result,
    let w := execs (calling c [call_tool name arguments])
               (replicate 6 (Run 0) ++ [Receive (Decoded reply); Run 0; Run 0]) in
    (∃ request,
       wire (self w) = stdin p ++ [request] ∧
       handle_request s request = (s', Ok (Some reply))) ∧
    invoked s' = invoked s ++ [MethodHandler "tools/call"; ToolHandler name] ∧
    threads w = [Returned result] ∧
    call_tool_resume result = Ok (JStr text) ∧
    pending_requests (self w) = delete (next_id c) (pending_requests c).
Proof.
  intros Hprocess Halive Hrunning Htool text.
  set (params := [("name", JStr name); ("arguments", arguments)]).
  set (s1 := call (ToolHandler name) (call (MethodHandler "tools/call") s)).
  set (result := text_content text
                   match handler arguments with Ok _ => false | Raise _ => true end).
  set (kv := [("jsonrpc", JStr "2.0"); ("id", JInt (next_id c)); ("result", result)]).
  exists s1, (JObj kv), result.
  destruct (round_trip c p "tools/call" (Some (JObj params)) kv)
    as (Hthreads & Hwire & _ & _ & _ & Hpending & _); [done..|].
  split; [|split; [|split; [|split]]].
  - eexists. split; [exact Hwire|].
    rewrite (handle_request_of _ _ _ _ _ methods_tools_call).
    cbn [default from_option id].
    rewrite (_handle_tools_call_unfold _ params name) by done.
    cbn [tools call]. rewrite Htool. cbn zeta.
    subst kv result text s1. unfold _create_success_response.
    by destruct (handler _).
  - subst s1. cbn. by rewrite <- app_assoc.
  - exact Hthreads.
  - done.
  - exact Hpending.
Qed.

Lemma X16_call_tool_round_trip_witness :
  ∃ s' reply result,
    let w := execs (calling connected
                      [call_tool "boom" (JObj [("v", JStr "hi")])])
               (replicate 6 (Run 0) ++ [Receive (Decoded reply); Run 0; Run 0]) in
    (∃ request,
       wire (self w) = [request] ∧
       handle_request Fixture.server request = (s', Ok (Some reply))) ∧
    invoked s' = [MethodHandler "tools/call"; ToolHandler "boom"] ∧
    threads w = [Returned result] ∧
    call_tool_resume result = Ok (JStr "Error: disk on fire") ∧
    pending_requests (self w) = delete 1%Z ∅.
Proof.
  exact (X16_call_tool_round_trip connected {| stdin := []; alive := true |}
           Fixture.server "boom"
           {| tool_name := "boom"; tool_description := "always fails";
              inputSchema := JObj [] |}
           Fixture.boom (JObj [("v", JStr "hi")])
           eq_refl eq_refl eq_refl eq_refl).
Defined.

(** X17.  [call_tool] on a name that is not registered, end to end: the
    server answers with error -32602 without calling a tool handler, and
    the client's call raises the server error with that code and the
    message "Tool not found: " followed by the name. *)
Theorem X17_call_unknown_tool_raises c p s name arguments :
  process c = Some p →
  alive p = true →
  running c = true →
  Py.assoc name (tools s) = None →
  ∃ reply,
    let w := execs (calling c [call_tool name arguments])
               (replicate 6 (Run 0) ++ [Receive (Decoded reply); Run 0; Run 0]) in
    (∃ request,
       wire (self w) = stdin p ++ [request] ∧
       handle_request s request =
         (call (MethodHandler "tools/call") s, Ok (Some reply))) ∧
    threads w =
      [Raised (ServerError (JStr ("Tool not found: " +:+ name))
                 (JInt (-32602)))] ∧
    pending_requests (self w) = delete (next_id c) (pending_requests c).
Proof.
  intros Hprocess Halive Hrunning Htool.
  set (params := [("name", JStr name); ("arguments", arguments)]).
  set (kv := [("jsonrpc", JStr "2.0"); ("id", JInt (next_id c));
              ("error", JObj [("code", JInt (-32602));
                              ("message", JStr ("Tool not found: " +:+ name))])]).
  exists (JObj kv).
  destruct (round_trip c p "tools/call" (Some (JObj params)) kv)
    as (Hthreads & Hwire & _ & _ & _ & Hpending & _); [done..|].
  split; [|split].
  - eexists. split; [exact Hwire|].
    rewrite (handle_request_of _ _ _ _ _ methods_tools_call).
    cbn [default from_option id].
    rewrite (_handle_tools_call_unfold _ params name) by done.
    cbn [tools call]. by rewrite Htool.
  - exact Hthreads.
  - exact Hpending.
Qed.

Lemma X17_call_unknown_tool_raises_witness :
  ∃ reply,
    let w := execs (calling connected [call_tool "non_existent_tool" (JObj [])])
               (replicate 6 (Run 0) ++ [Receive (Decoded reply); Run 0; Run 0]) in
    (∃ request,
       wire (self w) = [request] ∧
       handle_request Fixture.server request =
         (call (MethodHandler "tools/call") Fixture.server, Ok (Some reply))) ∧
    threads w =
      [Raised (ServerError (JStr "Tool not found: non_existent_tool")
                 (JInt (-32602)))] ∧
    pending_requests (self w) = delete 1%Z ∅.
Proof.
  exact (X17_call_unknown_tool_raises connected {| stdin := []; alive := true |}
           Fixture.server "non_existent_tool" (JObj [])
           eq_refl eq_refl eq_refl eq_refl).
Defined.

(** A call whose method is registered and whose handler returns: the
    call returns what the handler returned. *)
Lemma served c p s method params handler s' result :
  process c = Some p →
  alive p = true →
  running c = true →
  Py.assoc method methods = Some handler →
  handler (call (MethodHandler method) s) (default (JObj []) params) =
    (s', Ok result) →
  ∃ reply,
    let w := execs (calling c [Called method params])
               (replicate 6 (Run 0) ++ [Receive (Decoded reply); Run 0; Run 0]) in
    (∃ request,
       wire (self w) = stdin p ++ [request] ∧
       handle_request s request = (s', Ok (Some reply))) ∧
    threads w = [Returned result] ∧
    pending_requests (self w) = delete (next_id c) (pending_requests c).
Proof.
  intros Hprocess Halive Hrunning Hmethod Hrun.
  set (kv := [("jsonrpc", JStr "2.0"); ("id", JInt (next_id c)); ("result", result)]).
  exists (JObj kv).
  destruct (round_trip c p method params kv)
    as (Hthreads & Hwire & _ & _ & _ & Hpending & _); [done..|].
  split; [|by split].
  eexists. split; [exact Hwire|].
  by rewrite (handle_request_of _ _ _ _ _ Hmethod), Hrun.
Qed.

(** A call whose method is registered and whose handler raises: the call
    raises the server error, -32602 with the text of a [ValueError], -32603
    with a fixed text otherwise. *)
Lemma refused c p s method params handler s' e :
  process c = Some p →
  alive p = true →
  running c = true →
  Py.assoc method methods = Some handler →
  handler (call (MethodHandler method) s) (default (JObj []) params) =
    (s', Raise e) →
  ∃ reply,
    let w := execs (calling c [Called method params])
               (replicate 6 (Run 0) ++ [Receive (Decoded reply); Run 0; Run 0]) in
    (∃ request,
       wire (self w) = stdin p ++ [request] ∧
       handle_request s request = (s', Ok (Some reply))) ∧
    threads w =
      [Raised (if is_ValueError e
               then ServerError (JStr (Py.exn_str e)) (JInt (-32602))
               else ServerError (JStr "Internal server error") (JInt (-32603)))] ∧
    pending_requests (self w) = delete (next_id c) (pending_requests c).
Proof.
  intros Hprocess Halive Hrunning Hmethod Hrun.
  set (reply := if is_ValueError e then
                  _create_error_response (JInt (next_id c)) INVALID_PARAMS
                    (Py.exn_str e) None
                else
                  _create_error_response (JInt (next_id c)) INTERNAL_ERROR
                    "Internal server error"
                    (Some [("details", JStr (Py.exn_str e))])).
  exists reply.
  assert (Hkv : ∃ kv, reply = JObj kv ∧ Py.assoc "id" kv = Some (JInt (next_id c)) ∧
                check_response reply =
                  Raised (if is_ValueError e
                          then ServerError (JStr (Py.exn_str e)) (JInt (-32602))
                          else ServerError (JStr "Internal server error")
                                 (JInt (-32603)))).
  { subst reply. destruct (is_ValueError e); by eexists. }
  destruct Hkv as (kv & Hreply & Hid & Hcheck). rewrite Hreply.
  destruct (round_trip c p method params kv)
    as (Hthreads & Hwire & _ & _ & _ & Hpending & _); [done..|].
  split; [|split; [|done]].
  - eexists. split; [exact Hwire|].
    by rewrite (handle_request_of _ _ _ _ _ Hmethod), Hrun, <- Hreply.
  - by rewrite <- Hcheck, Hreply.
Qed.

(** X18.  The handshake, end to end.  The server answers the client's
    [initialize] request with its name, version and capabilities and sets
    [initialized]; the client's [_initialize] records the server's name and
    version as [server_info] and the capabilities as they came, raises
    nothing, and writes the notification "notifications/initialized" after
    the request; the server takes that notification without a reply and
    without a change. *)
Theorem X18_handshake c p s :
  process c = Some p →
  alive p = true →
  running c = true →
  ∃ reply result,
    let w := execs (calling c [_initialize])
               (replicate 6 (Run 0) ++ [Receive (Decoded reply); Run 0; Run 0]) in
    let s' := set_initialized true (call (MethodHandler "initialize") s) in
    let c' := (_initialize_resume (self w) result).1 in
    threads w = [Returned result] ∧
    (_initialize_resume (self w) result).2 = None ∧
    server_info c' =
      Some (JObj [("name", JStr (name s)); ("version", JStr (version s))]) ∧
    server_capabilities c' =
      Some (JObj [("resources", JObj []); ("tools", JObj []);
                  ("prompts", JObj []); ("logging", JObj [])]) ∧
    ∃ request notification,
      wire c' = stdin p ++ [request; notification] ∧
      handle_request s request = (s', Ok (Some reply)) ∧
      handle_request s' notification = (s', Ok None).
Proof.
  intros Hprocess Halive Hrunning.
  set (result := JObj [("protocolVersion", JStr (protocol_version s));
                       ("capabilities", JObj [("resources", JObj []);
                                              ("tools", JObj []);
                                              ("prompts", JObj []);
                                              ("logging", JObj [])]);
                       ("serverInfo", JObj [("name", JStr (name s));
                                            ("version", JStr (version s))])]).
  set (kv := [("jsonrpc", JStr "2.0"); ("id", JInt (next_id c)); ("result", result)]).
  exists (JObj kv), result.
  destruct (round_trip c p "initialize" (Some initialize_params) kv)
    as (Hthreads & _ & Hwire & _); [done..|].
  cbv zeta. unfold _initialize.
  set (w := execs _ _) in *. clearbody w.
  unfold _initialize_resume, _send_notification, write, wire.
  subst result. cbn. rewrite Hwire. cbn.
  split; [done|]. split; [done|]. split; [done|]. split; [done|].
  eexists _, _. split; [by rewrite <- app_assoc|]. split.
  - by rewrite (handle_request_of _ _ "initialize" _ _handle_initialize eq_refl).
  - done.
Qed.

Lemma X18_handshake_witness :
  ∃ reply result,
    let w := execs (calling connected [_initialize])
               (replicate 6 (Run 0) ++ [Receive (Decoded reply); Run 0; Run 0]) in
    let s' := set_initialized true
                (call (MethodHandler "initialize") Fixture.server) in
    let c' := (_initialize_resume (self w) result).1 in
    threads w = [Returned result] ∧
    (_initialize_resume (self w) result).2 = None ∧
    server_info c' =
      Some (JObj [("name", JStr "example-server"); ("version", JStr "1.0.0")]) ∧
    server_capabilities c' =
      Some (JObj [("resources", JObj []); ("tools", JObj []);
                  ("prompts", JObj []); ("logging", JObj [])]) ∧
    ∃ request notification,
      wire c' = [request; notification] ∧
      handle_request Fixture.server request = (s', Ok (Some reply)) ∧
      handle_request s' notification = (s', Ok None).
Proof.
  exact (X18_handshake connected {| stdin := []; alive := true |} Fixture.server
           eq_refl eq_refl eq_refl).
Defined.

(** X19.  The three listing calls, end to end: [list_tools],
    [list_resources] and [list_prompts] return what is registered in the
    server, one dict for each tool, resource or prompt, in the order of
    the server's dicts, and the server is changed by nothing but the record
    of the method that ran. *)
Theorem X19_listings_round_trip c p s :
  process c = Some p →
  alive p = true →
  running c = true →
  (∃ reply result,
     let w := execs (calling c [list_tools])
                (replicate 6 (Run 0) ++ [Receive (Decoded reply); Run 0; Run 0]) in
     (∃ request,
        wire (self w) = stdin p ++ [request] ∧
        handle_request s request =
          (call (MethodHandler "tools/list") s, Ok (Some reply))) ∧
     threads w = [Returned result] ∧
     list_tools_resume result =
       Ok (JList ((λ entry, asdict_Tool entry.2.1) <$> tools s))) ∧
  (∃ reply result,
     let w := execs (calling c [list_resources])
                (replicate 6 (Run 0) ++ [Receive (Decoded reply); Run 0; Run 0]) in
     (∃ request,
        wire (self w) = stdin p ++ [request] ∧
        handle_request s request =
          (call (MethodHandler "resources/list") s, Ok (Some reply))) ∧
     threads w = [Returned result] ∧
     list_resources_resume result =
       Ok (JList ((λ entry, asdict_Resource entry.2.1) <$> resources s))) ∧
  (∃ reply result,
     let w := execs (calling c [list_prompts])
                (replicate 6 (Run 0) ++ [Receive (Decoded reply); Run 0; Run 0]) in
     (∃ request,
        wire (self w) = stdin p ++ [request] ∧
        handle_request s request =
          (call (MethodHandler "prompts/list") s, Ok (Some reply))) ∧
     threads w = [Returned result] ∧
     list_prompts_resume result =
       Ok (JList ((λ entry, asdict_Prompt entry.2.1) <$> prompts s))).
Proof.
  intros Hprocess Halive Hrunning. split; [|split].
  - destruct (served c p s "tools/list" None _handle_tools_list _ _
                Hprocess Halive Hrunning eq_refl eq_refl)
      as (reply & Hserver & Hthreads & _).
    by eexists reply, _.
  - destruct (served c p s "resources/list" None _handle_resources_list _ _
                Hprocess Halive Hrunning eq_refl eq_refl)
      as (reply & Hserver & Hthreads & _).
    by eexists reply, _.
  - destruct (served c p s "prompts/list" None _handle_prompts_list _ _
                Hprocess Halive Hrunning eq_refl eq_refl)
      as (reply & Hserver & Hthreads & _).
    by eexists reply, _.
Qed.

Lemma X19_listings_round_trip_witness :
  ∃ reply result,
    let w := execs (calling connected [list_tools])
               (replicate 6 (Run 0) ++ [Receive (Decoded reply); Run 0; Run 0]) in
    (∃ request,
       wire (self w) = [request] ∧
       handle_request Fixture.server request =
         (call (MethodHandler "tools/list") Fixture.server, Ok (Some reply))) ∧
    threads w = [Returned result] ∧
    list_tools_resume result =
      Ok (JList [JObj [("name", JStr "echo");
                       ("description", JStr "returns v");
                       ("inputSchema", JObj [])];
                 JObj [("name", JStr "boom");
                       ("description", JStr "always fails");
                       ("inputSchema", JObj [])]]).
Proof.
  exact (proj1 (X19_listings_round_trip connected {| stdin := []; alive := true |}
                  Fixture.server eq_refl eq_refl eq_refl)).
Defined.

(** X20.  [read_resource] on a registered resource, end to end.  When the
    resource's handler returns, the client's call returns exactly that
    content.  When the handler raises, the client's call raises the server
    error, -32602 with the exception's text for a [ValueError] and -32603
    with "Internal server error" otherwise: unlike a tool's, a resource's
    fault reaches the caller as an exception. *)
Theorem X20_read_resource_round_trip c p s uri resource handler :
  process c = Some p →
  alive p = true →
  running c = true →
  Py.assoc uri (resources s) = Some (resource, handler) →
  ∃ reply,
    let w := execs (calling c [read_resource uri])
               (replicate 6 (Run 0) ++ [Receive (Decoded reply); Run 0; Run 0]) in
    (∃ request,
       wire (self w) = stdin p ++ [request] ∧
       handle_request s request =
         (call (ResourceHandler uri) (call (MethodHandler "resources/read") s),
          Ok (Some reply))) ∧
    match handler with
    | Ok content =>
        ∃ result,
          threads w = [Returned result] ∧
          read_resource_resume result = Ok content
    | Raise e =>
        threads w =
          [Raised (if is_ValueError e
                   then ServerError (JStr (Py.exn_str e)) (JInt (-32602))
                   else ServerError (JStr "Internal server error")
                          (JInt (-32603)))]
    end.
Proof.
  intros Hprocess Halive Hrunning Hresource.
  set (s' := call (ResourceHandler uri) (call (MethodHandler "resources/read") s)).
  destruct handler as [content|e].
  - destruct (served c p s "resources/read" (Some (JObj [("uri", JStr uri)]))
                _handle_resources_read s'
                (JObj [("contents",
                        JList [JObj [("uri", JStr uri);
                                     ("mimeType", JStr (mimeType resource));
                                     ("text", content)]])])
                Hprocess Halive Hrunning eq_refl)
      as (reply & Hserver & Hthreads & _).
    { cbn [default from_option id]. unfold _handle_resources_read, Py.get.
      change (Py.assoc "uri" [("uri", JStr uri)]) with (Some (JStr uri)).
      cbn [default from_option id mbind outcome_bind Py.hash Py.find Py.str].
      cbn [resources call]. by rewrite Hresource. }
    exists reply. split; [done|]. by eexists.
  - destruct (refused c p s "resources/read" (Some (JObj [("uri", JStr uri)]))
                _handle_resources_read s' e
                Hprocess Halive Hrunning eq_refl)
      as (reply & Hserver & Hthreads & _).
    { cbn [default from_option id]. unfold _handle_resources_read, Py.get.
      change (Py.assoc "uri" [("uri", JStr uri)]) with (Some (JStr uri)).
      cbn [default from_option id mbind outcome_bind Py.hash Py.find Py.str].
      cbn [resources call]. by rewrite Hresource. }
    by exists reply.
Qed.

Lemma X20_read_resource_round_trip_witness :
  let s := register_resource "file:///motd" "motd" "message of the day"
             "text/plain" (Ok (JStr "hello")) Fixture.server in
  ∃ reply,
    let w := execs (calling connected [read_resource "file:///motd"])
               (replicate 6 (Run 0) ++ [Receive (Decoded reply); Run 0; Run 0]) in
    (∃ request,
       wire (self w) = [request] ∧
       handle_request s request =
         (call (ResourceHandler "file:///motd")
            (call (MethodHandler "resources/read") s),
          Ok (Some reply))) ∧
    ∃ result,
      threads w = [Returned result] ∧
      read_resource_resume result = Ok (JStr "hello").
Proof.
  exact (X20_read_resource_round_trip connected {| stdin := []; alive := true |}
           (register_resource "file:///motd" "motd" "message of the day"
              "text/plain" (Ok (JStr "hello")) Fixture.server)
           "file:///motd"
           {| uri := "file:///motd"; resource_name := "motd";
              resource_description := "message of the day";
              mimeType := "text/plain" |}
           (Ok (JStr "hello")) eq_refl eq_refl eq_refl eq_refl).
Defined.

(** X21.  [get_prompt], end to end.  The prompt's handler is run on the
    arguments the caller gave, and on an empty dict when the caller gave
    [None], an empty dict or anything else that is false: the client then
    sends no "arguments" member and the server supplies the empty dict.
    The call returns the registered description and the handler's
    messages. *)
Theorem X21_get_prompt_round_trip c p s name prompt handler arguments messages :
  process c = Some p →
  alive p = true →
  running c = true →
  Py.assoc name (prompts s) = Some (prompt, handler) →
  handler match arguments with
          | Some a => if Py.truthy a then a else JObj []
          | None => JObj []
          end = Ok messages →
  ∃ reply,
    let w := execs (calling c [get_prompt name arguments])
               (replicate 6 (Run 0) ++ [Receive (Decoded reply); Run 0; Run 0]) in
    (∃ request,
       wire (self w) = stdin p ++ [request] ∧
       handle_request s request =
         (call (PromptHandler name) (call (MethodHandler "prompts/get") s),
          Ok (Some reply))) ∧
    threads w =
      [Returned (JObj [("description", JStr (prompt_description prompt));
                       ("messages", messages)])].
Proof.
  intros Hprocess Halive Hrunning Hprompt Hrun.
  unfold get_prompt.
  set (params := match arguments with
                 | Some a => if Py.truthy a
                             then Py.assoc_set "arguments" a [("name", JStr name)]
                             else [("name", JStr name)]
                 | None => [("name", JStr name)]
                 end).
  destruct (served c p s "prompts/get" (Some (JObj params)) _handle_prompts_get
              (call (PromptHandler name) (call (MethodHandler "prompts/get") s))
              (JObj [("description", JStr (prompt_description prompt));
                     ("messages", messages)])
              Hprocess Halive Hrunning eq_refl)
    as (reply & Hserver & Hthreads & _).
  { cbn [default from_option id]. unfold _handle_prompts_get, Py.get.
    assert (Hname : Py.assoc "name" params = Some (JStr name)).
    { subst params. destruct arguments as [a|]; [|done]. by destruct (Py.truthy a). }
    assert (Harguments :
              default (JObj []) (Py.assoc "arguments" params) =
              match arguments with
              | Some a => if Py.truthy a then a else JObj []
              | None => JObj []
              end).
    { subst params. destruct arguments as [a|]; [|done]. by destruct (Py.truthy a). }
    rewrite Hname, Harguments.
    cbn [default from_option id mbind outcome_bind Py.hash Py.find Py.str].
    cbn [prompts call]. rewrite Hprompt. cbn zeta. by rewrite Hrun. }
  by exists reply.
Qed.

Lemma X21_get_prompt_round_trip_witness :
  let s := register_prompt "greet" "a greeting" (JList [])
             (λ arguments, Ok (JList [arguments])) Fixture.server in
  ∃ reply,
    let w := execs (calling connected [get_prompt "greet" (Some (JObj []))])
               (replicate 6 (Run 0) ++ [Receive (Decoded reply); Run 0; Run 0]) in
    (∃ request,
       wire (self w) = [request] ∧
       handle_request s request =
         (call (PromptHandler "greet") (call (MethodHandler "prompts/get") s),
          Ok (Some reply))) ∧
    threads w =
      [Returned (JObj [("description", JStr "a greeting");
                       ("messages", JList [JObj []])])].
Proof.
  exact (X21_get_prompt_round_trip connected {| stdin := []; alive := true |}
           (register_prompt "greet" "a greeting" (JList [])
              (λ arguments, Ok (JList [arguments])) Fixture.server)
           "greet"
           {| prompt_name := "greet"; prompt_description := "a greeting";
              arguments := JList [] |}
           (λ arguments, Ok (JList [arguments])) (Some (JObj [])) (JList [JObj []])
           eq_refl eq_refl eq_refl eq_refl eq_refl).
Defined.

End RoundTrips.

(** * The server's replies, in order *)

Section RepliesInOrder.

Import Server.

(** A request proper is answered: [handle_request] returns a reply, which
    is not empty and carries the id of the request, and has written
    nothing. *)
Lemma request_answered s kv request_id method :
  Py.assoc "id" kv = Some request_id →
  request_id ≠ JNull →
  Py.assoc "method" kv = Some (JStr method) →
  method ≠ "notifications/initialized" →
  ∃ s1 reply,
    handle_request s (JObj kv) = (s1, Ok (Some reply)) ∧
    stdout s1 = stdout s ∧
    Py.truthy reply = true ∧
    Py.get reply "id" JNull = Ok request_id.
Proof.
  intros Hid Hnull Hmethod Hne.
  pose proof (handle_request_keeps_stdout s (JObj kv)) as Hkeep.
  rewrite (handle_request_unfold _ _ _ _ Hid Hmethod Hne) in *.
  rewrite (is_None_false _ Hnull) in *.
  destruct (Py.assoc method methods) as [handler|].
  - destruct (handler _ _) as [s' [result|e]]; cbn in Hkeep.
    + by eexists _, _.
    + destruct (is_ValueError e); cbn in Hkeep; by eexists _, _.
  - by eexists _, _.
Qed.

(** X22.  The server answers requests one by one, in the order in which
    they come.  On a stream of requests that each carry a non-null id and
    a method name other than "notifications/initialized", known or unknown,
    whatever their handlers do, the loop of [run] writes one reply for
    each request, in the order of the requests and each with the id of its
    request, until the stream ends or a write raises.  It ends before the
    stream in one case only: the write of the reply to the next request has
    raised, and the loop ends with that exception. *)
Theorem X22_one_reply_per_request_in_order fault s requests :
  Forall (λ request,
            ∃ kv request_id method,
              request = JObj kv ∧
              Py.assoc "id" kv = Some request_id ∧ request_id ≠ JNull ∧
              Py.assoc "method" kv = Some (JStr method) ∧
              method ≠ "notifications/initialized") requests →
  ∃ out,
    stdout (run fault s (Decoded <$> requests)).1 = stdout s ++ out ∧
    Forall2 (λ request reply,
               Py.get reply "id" JNull = Py.get request "id" JNull)
      (take (length out) requests) out ∧
    match (run fault s (Decoded <$> requests)).2 with
    | None => length out = length requests
    | Some e =>
        ∃ request reply,
          requests !! length out = Some request ∧
          Py.get reply "id" JNull = Py.get request "id" JNull ∧
          fault (stdout s ++ out) reply = Some e
    end.
Proof.
  intros Hrequests. revert s.
  induction Hrequests as [|request requests Hrequest _ IH]; intros s.
  - exists []. cbn. rewrite app_nil_r. split; [done|]. split; [constructor|done].
  - destruct Hrequest as (kv & request_id & method & -> & Hid & Hnull & Hmethod & Hne).
    destruct (request_answered s kv request_id method Hid Hnull Hmethod Hne)
      as (s1 & reply & Hreply & Hstdout & Htruthy & Hreplyid).
    assert (Hids : Py.get reply "id" JNull = Py.get (JObj kv) "id" JNull).
    { rewrite Hreplyid. cbn. by rewrite Hid. }
    cbn [fmap list_fmap run run_line]. rewrite Hreply, Htruthy.
    unfold _write_message. rewrite Hstdout.
    destruct (fault (stdout s) reply) as [e|] eqn:Hfault.
    + exists []. cbn. rewrite app_nil_r. split; [done|]. split; [constructor|].
      by exists (JObj kv), reply.
    + fold (list_fmap json wire_line Decoded requests).
      destruct (IH (set_stdout (stdout s ++ [reply]) s1)) as (out & Hout & Hpairs & Hend).
      exists (reply :: out). split; [|split].
      * rewrite Hout. cbn. by rewrite <- app_assoc.
      * cbn. by constructor.
      * cbn [length lookup list_lookup].
        destruct (run fault _ _).2; [|by rewrite Hend].
        cbn [stdout set_stdout] in Hend. by rewrite <- app_assoc in Hend.
Qed.

Lemma X22_one_reply_per_request_in_order_witness :
  let requests :=
    [Fixture.request 1 "tools/list" (JObj []);
     Fixture.request 2 "ghost" (JObj []);
     Fixture.request 3 "tools/call" (JObj [("name", JStr "boom")])] in
  ∃ out,
    stdout (run Fixture.no_fault Fixture.server (Decoded <$> requests)).1 =
      stdout Fixture.server ++ out ∧
    Forall2 (λ request reply,
               Py.get reply "id" JNull = Py.get request "id" JNull)
      (take (length out) requests) out ∧
    match (run Fixture.no_fault Fixture.server (Decoded <$> requests)).2 with
    | None => length out = length requests
    | Some e =>
        ∃ request reply,
          requests !! length out = Some request ∧
          Py.get reply "id" JNull = Py.get request "id" JNull ∧
          Fixture.no_fault (stdout Fixture.server ++ out) reply = Some e
    end.
Proof.
  apply (X22_one_reply_per_request_in_order Fixture.no_fault Fixture.server
           [Fixture.request 1 "tools/list" (JObj []);
            Fixture.request 2 "ghost" (JObj []);
            Fixture.request 3 "tools/call" (JObj [("name", JStr "boom")])]).
  repeat constructor.
  - eexists _, (JInt 1), "tools/list". by repeat split.
  - eexists _, (JInt 2), "ghost". by repeat split.
  - eexists _, (JInt 3), "tools/call". by repeat split.
Defined.

(** A reply that cannot be written ends the loop.  The handler of the
    resource returns an integer of 4301 digits, [json.dumps] raises on the
    reply, and the request after it is never read. *)
Example unwritable_reply_ends_loop :
  let s := register_resource "mem://big" "big" "a large number" "text/plain"
             (Ok (JInt (10 ^ 4300))) Fixture.server in
  let requests :=
    [Fixture.request 1 "tools/list" (JObj []);
     Fixture.request 2 "resources/read" (JObj [("uri", JStr "mem://big")]);
     Fixture.request 3 "tools/list" (JObj [])] in
  (run Fixture.digit_limit s (Decoded <$> requests)).2 =
    Some (ValueError "Exceeds the limit (4300 digits) for integer string conversion; use sys.set_int_max_str_digits() to increase the limit") ∧
  (λ reply, Py.get reply "id" JNull)
    <$> stdout (run Fixture.digit_limit s (Decoded <$> requests)).1 =
    [Ok (JInt 1)].
Proof. split; vm_compute; reflexivity. Qed.

End RepliesInOrder.
